(** * deep-chat data loading and chart generation: a shallow embedding

    The development follows the two JavaScript modules of the website
    utilities:

    - the data loader ([fetchRemoteData], [parseCSV], [parseJSON],
      [loadRemoteData], [formatDataForAI], [createDataContextPrompt]);
    - the chart generator ([generateQuickChartUrl], [createLineChart],
      [createBarChart], [createPieChart], [createScatterPlot],
      [handleChartFunction]).

    Module [JS] models the part of the JavaScript runtime these functions
    rely on: strings, numbers, values, own properties of ordinary objects,
    [JSON.stringify], [encodeURIComponent], exceptions.  The modules
    [DataLoader] and [ChartGenerator] then transcribe the source functions,
    and the remaining modules state and prove their properties. *)

From Stdlib Require Import String Ascii List ZArith NArith Lia Bool DecimalString.
Import ListNotations.
Open Scope string_scope.
Set Warnings "-register-all".

(* ===================================================================== *)
(** * The JavaScript runtime *)
(* ===================================================================== *)

Module JS.

(** ** Strings

    A JavaScript string is a sequence of UTF-16 code units.  The model
    covers the strings whose code units lie in the range 0..255 and
    represents them as [string], one [ascii] per code unit. *)

Definition LF : string := String "010"%char "".
Definition DQUOTE : ascii := "034"%char.

(** WhiteSpace and LineTerminator code points (those below 256): TAB, LF,
    VT, FF, CR, SP and NBSP.  They are what [String.prototype.trim]
    strips. *)
Definition is_white_space (c : ascii) : bool :=
  match nat_of_ascii c with
  | 9 | 10 | 11 | 12 | 13 | 32 | 160 => true
  | _ => false
  end.

Fixpoint trimStart (s : string) : string :=
  match s with
  | EmptyString => EmptyString
  | String c s' => if is_white_space c then trimStart s' else s
  end.

Fixpoint trimEnd (s : string) : string :=
  match s with
  | EmptyString => EmptyString
  | String c s' =>
      match trimEnd s' with
      | EmptyString => if is_white_space c then EmptyString else String c EmptyString
      | t => String c t
      end
  end.

(** [s.trim()] *)
Definition trim (s : string) : string := trimEnd (trimStart s).

(** [is_prefix p s]: [s] starts with [p]. *)
Fixpoint is_prefix (p s : string) : bool :=
  match p, s with
  | EmptyString, _ => true
  | String a p', String b s' => Ascii.eqb a b && is_prefix p' s'
  | String _ _, EmptyString => false
  end.

(** The scan of [s.split(sep)] for a non-empty separator.  [skip] counts
    the code units of a separator occurrence that are still to be passed
    over; the head of the result is the piece being accumulated. *)
Fixpoint split_scan (sep : string) (skip : nat) (s : string) : list string :=
  match s with
  | EmptyString => [EmptyString]
  | String c s' =>
      match skip with
      | S k => split_scan sep k s'
      | O =>
          if is_prefix sep s then
            EmptyString :: split_scan sep (String.length sep - 1) s'
          else
            match split_scan sep 0 s' with
            | piece :: rest => String c piece :: rest
            | [] => [String c EmptyString]
            end
      end
  end.

Fixpoint code_units (s : string) : list string :=
  match s with
  | EmptyString => []
  | String c s' => String c EmptyString :: code_units s'
  end.

(** [s.split(sep)] with a string separator.  The empty separator splits
    between all code units (and gives the empty array on the empty
    string); any other separator is searched from left to right. *)
Definition split (sep s : string) : list string :=
  match sep with
  | EmptyString => code_units s
  | String _ _ => split_scan sep 0 s
  end.

(** [parts.join(sep)] on an array of strings. *)
Fixpoint join (sep : string) (parts : list string) : string :=
  match parts with
  | [] => EmptyString
  | [p] => p
  | p :: rest => p ++ sep ++ join sep rest
  end.

Definition drop_leading_quote (s : string) : string :=
  match s with
  | String c s' => if Ascii.eqb c DQUOTE then s' else s
  | EmptyString => EmptyString
  end.

Fixpoint drop_trailing_quote (s : string) : string :=
  match s with
  | EmptyString => EmptyString
  | String c EmptyString => if Ascii.eqb c DQUOTE then EmptyString else s
  | String c s' => String c (drop_trailing_quote s')
  end.

(** [s.replace(/^"|"$/g, '')]: the global replacement deletes a double
    quote at the very start, if there is one, and a double quote at the
    very end, if there is one left after that. *)
Definition replace_edge_quotes (s : string) : string :=
  drop_trailing_quote (drop_leading_quote s).

(** Decimal text of a length or an index. *)
Definition nat_to_string (n : nat) : string :=
  NilEmpty.string_of_uint (Nat.to_uint n).

Fixpoint repeat_string (s : string) (n : nat) : string :=
  match n with
  | O => EmptyString
  | S n' => s ++ repeat_string s n'
  end.

(** ** Numbers

    A Number is represented by what [Number::toString] is defined on: its
    sign and the integers [s] and [e] of its shortest decimal form
    [s * 10^e] ([s] not a multiple of ten, [s = 0] for the zeros), or one
    of the three non-finite values. *)

Inductive number : Type :=
| NaN
| Infinity (negative : bool)
| Finite (negative : bool) (s : N) (e : Z).

Definition num (z : Z) : number := Finite (z <? 0)%Z (Z.abs_N z) 0.

(** [Number::toString(x)] in radix 10. *)
Definition Number_toString (x : number) : string :=
  match x with
  | NaN => "NaN"
  | Infinity negative => (if negative then "-" else "") ++ "Infinity"
  | Finite negative s e =>
      if (s =? 0)%N then "0" else
      let digits := NilEmpty.string_of_uint (N.to_uint s) in
      let k := String.length digits in
      let n := (e + Z.of_nat k)%Z in
      let body :=
        if ((Z.of_nat k <=? n) && (n <=? 21))%Z then
          digits ++ repeat_string "0" (Z.to_nat (n - Z.of_nat k))
        else if ((0 <? n) && (n <=? 21))%Z then
          substring 0 (Z.to_nat n) digits ++ "."
            ++ substring (Z.to_nat n) (k - Z.to_nat n) digits
        else if ((-6 <? n) && (n <=? 0))%Z then
          "0." ++ repeat_string "0" (Z.to_nat (- n)) ++ digits
        else
          let ex := (n - 1)%Z in
          let exponent :=
            "e" ++ (if (ex <? 0)%Z then "-" else "+")
                ++ NilEmpty.string_of_uint (N.to_uint (Z.abs_N ex)) in
          if (k =? 1)%nat then digits ++ exponent
          else substring 0 1 digits ++ "." ++ substring 1 (k - 1) digits ++ exponent
      in
      (if negative then "-" else "") ++ body
  end.

Definition Number_isFinite (x : number) : bool :=
  match x with
  | Finite _ _ _ => true
  | _ => false
  end.

(** ** Values

    The values that flow through the program are those of JSON documents,
    the rows built by [parseCSV], chart configurations, and [undefined].
    An object is the list of its own enumerable properties in the order
    [Object.keys] reports them. *)

Inductive value : Type :=
| VUndefined
| VNull
| VBool (b : bool)
| VNum (n : number)
| VStr (s : string)
| VArr (elements : list value)
| VObj (properties : list (string * value)).

Definition props : Type := list (string * value).

(** Induction on values, through the elements of arrays and the
    properties of objects. *)

Section ValueInduction.

Variable P : value -> Prop.
Hypothesis P_undefined : P VUndefined.
Hypothesis P_null : P VNull.
Hypothesis P_bool : forall b, P (VBool b).
Hypothesis P_num : forall n, P (VNum n).
Hypothesis P_str : forall s, P (VStr s).
Hypothesis P_arr : forall l, Forall P l -> P (VArr l).
Hypothesis P_obj : forall ps, Forall (fun kv => P (snd kv)) ps -> P (VObj ps).

Fixpoint value_nested_ind (v : value) : P v :=
  match v with
  | VUndefined => P_undefined
  | VNull => P_null
  | VBool b => P_bool b
  | VNum n => P_num n
  | VStr s => P_str s
  | VArr l =>
      P_arr l
        ((fix elements (l : list value) : Forall P l :=
            match l with
            | [] => Forall_nil P
            | e :: l' => Forall_cons e (value_nested_ind e) (elements l')
            end) l)
  | VObj ps =>
      P_obj ps
        ((fix properties (ps : list (string * value))
            : Forall (fun kv => P (snd kv)) ps :=
            match ps with
            | [] => Forall_nil _
            | kv :: ps' => Forall_cons kv (value_nested_ind (snd kv)) (properties ps')
            end) ps)
  end.

End ValueInduction.

(** ** Exceptions *)

Inductive exn : Type :=
| TypeError (message : string)
| SyntaxError (message : string)
| Error (message : string).

Inductive result (A : Type) : Type :=
| Ok (a : A)
| Throw (e : exn).
Arguments Ok {A} a.
Arguments Throw {A} e.

Definition bind {A B : Type} (m : result A) (k : A -> result B) : result B :=
  match m with
  | Ok a => k a
  | Throw e => Throw e
  end.

(** [try { body } catch (error) { handler(error) }] *)
Definition try_catch {A : Type} (body : result A) (handler : exn -> result A) : result A :=
  match body with
  | Ok a => Ok a
  | Throw e => handler e
  end.

Fixpoint mapM {A B : Type} (f : A -> result B) (l : list A) : result (list B) :=
  match l with
  | [] => Ok []
  | a :: l' =>
      bind (f a) (fun b => bind (mapM f l') (fun bs => Ok (b :: bs)))
  end.

(** [arr.forEach((x, index) => ...)] threading the variables the callback
    assigns to. *)
Fixpoint forEach_from {A St : Type} (index : nat) (l : list A)
    (f : St -> A -> nat -> St) (st : St) : St :=
  match l with
  | [] => st
  | a :: l' => forEach_from (S index) l' f (f st a index)
  end.

Definition forEach {A St : Type} (l : list A) (f : St -> A -> nat -> St) (st : St) : St :=
  forEach_from 0 l f st.

(** ** Type tests and conversions *)

Definition Array_isArray (v : value) : bool :=
  match v with
  | VArr _ => true
  | _ => false
  end.

Definition ToBoolean (v : value) : bool :=
  match v with
  | VUndefined | VNull => false
  | VBool b => b
  | VNum NaN => false
  | VNum (Infinity _) => true
  | VNum (Finite _ s _) => negb (s =? 0)%N
  | VStr s => negb (s =? "")
  | VArr _ | VObj _ => true
  end.

(** [a || b] *)
Definition js_or (a b : value) : value := if ToBoolean a then a else b.

(** [ToString(v)], as applied by template literals.  An array prints its
    elements separated by commas, with [undefined] and [null] elements
    printed as nothing. *)
Fixpoint ToString (v : value) : string :=
  match v with
  | VUndefined => "undefined"
  | VNull => "null"
  | VBool true => "true"
  | VBool false => "false"
  | VNum n => Number_toString n
  | VStr s => s
  | VArr l =>
      join "," (map (fun e => match e with
                              | VUndefined | VNull => ""
                              | _ => ToString e
                              end) l)
  | VObj _ => "[object Object]"
  end.

(** ** Own properties of ordinary objects *)

Fixpoint own_get (ps : props) (k : string) : option value :=
  match ps with
  | [] => None
  | (k', v) :: ps' => if k' =? k then Some v else own_get ps' k
  end.

Definition has_own (ps : props) (k : string) : bool :=
  match own_get ps k with
  | Some _ => true
  | None => false
  end.

(** An array index is the canonical decimal text of an integer below
    [2^32 - 1]. *)
Definition array_index (k : string) : option N :=
  match NilEmpty.uint_of_string k with
  | Some u =>
      let i := N.of_uint u in
      if (NilEmpty.string_of_uint (N.to_uint i) =? k) && (i <? 4294967295)%N
      then Some i else None
  | None => None
  end.

Fixpoint update_own (ps : props) (k : string) (v : value) : props :=
  match ps with
  | [] => []
  | (k', v') :: ps' =>
      if k' =? k then (k', v) :: ps' else (k', v') :: update_own ps' k v
  end.

(** Own property keys are ordered with the array indices first, in
    ascending numeric order, then the other strings in the order of their
    creation. *)
Fixpoint insert_index (i : N) (k : string) (v : value) (ps : props) : props :=
  match ps with
  | [] => [(k, v)]
  | (k', v') :: ps' =>
      match array_index k' with
      | Some j =>
          if (j <? i)%N then (k', v') :: insert_index i k v ps'
          else (k, v) :: ps
      | None => (k, v) :: ps
      end
  end.

Definition define_own (ps : props) (k : string) (v : value) : props :=
  if has_own ps k then update_own ps k v
  else
    match array_index k with
    | Some i => insert_index i k v ps
    | None => (ps ++ [(k, v)])%list
    end.

(** [obj[k] = v] on an object created by [{}].  The key [__proto__] is
    the accessor inherited from [Object.prototype]: assigning to it never
    creates an own property. *)
Definition obj_set (ps : props) (k : string) (v : value) : props :=
  if k =? "__proto__" then ps else define_own ps k v.

(** [v.name] for the property names this program reads ([title],
    [labels], [datasets], [data], [colors], [label], [color]), none of
    which a built-in prototype defines: reading from [undefined] or [null]
    throws, an object answers with its own property, any other value with
    [undefined]. *)
Definition prop (v : value) (name : string) : result value :=
  match v with
  | VUndefined => Throw (TypeError ("Cannot read properties of undefined (reading '" ++ name ++ "')"))
  | VNull => Throw (TypeError ("Cannot read properties of null (reading '" ++ name ++ "')"))
  | VObj ps =>
      match own_get ps name with
      | Some x => Ok x
      | None => Ok VUndefined
      end
  | _ => Ok VUndefined
  end.

(** [Object.keys(v)] *)
Definition Object_keys (v : value) : result (list string) :=
  match v with
  | VUndefined | VNull => Throw (TypeError "Cannot convert undefined or null to object")
  | VObj ps => Ok (map fst ps)
  | VArr l => Ok (map nat_to_string (seq 0 (List.length l)))
  | VStr s => Ok (map nat_to_string (seq 0 (String.length s)))
  | VBool _ | VNum _ => Ok []
  end.

(** [v.map(f)]: only arrays have a [map] method among the values of the
    model. *)
Definition Array_map (v : value) (f : value -> result value) : result value :=
  match v with
  | VArr l => bind (mapM f l) (fun l' => Ok (VArr l'))
  | VUndefined => Throw (TypeError "Cannot read properties of undefined (reading 'map')")
  | VNull => Throw (TypeError "Cannot read properties of null (reading 'map')")
  | _ => Throw (TypeError "datasets.map is not a function")
  end.

(** [arr.slice(0, end)] for an integral [end]: a negative [end] counts
    from the end of the array. *)
Definition slice0 {A : Type} (l : list A) (end_ : Z) : list A :=
  let len := Z.of_nat (List.length l) in
  let final := if (end_ <? 0)%Z then Z.max (len + end_) 0 else Z.min end_ len in
  firstn (Z.to_nat final) l.

(** [arr[i]] *)
Definition element (l : list value) (i : nat) : value := nth i l VUndefined.

(** ** JSON.stringify *)

Definition hex_digit (upper : bool) (n : nat) : ascii :=
  if (n <? 10)%nat then ascii_of_nat (48 + n)
  else ascii_of_nat ((if upper then 55 else 87) + n).

Definition json_escape (c : ascii) : string :=
  let n := nat_of_ascii c in
  match n with
  | 8 => "\b"
  | 9 => "\t"
  | 10 => "\n"
  | 12 => "\f"
  | 13 => "\r"
  | 34 => "\" ++ String DQUOTE ""
  | 92 => "\\"
  | _ =>
      if (n <? 32)%nat then
        "\u00" ++ String (hex_digit false (n / 16)) (String (hex_digit false (n mod 16)) "")
      else String c ""
  end.

Fixpoint json_escape_all (s : string) : string :=
  match s with
  | EmptyString => EmptyString
  | String c s' => json_escape c ++ json_escape_all s'
  end.

(** [QuoteJSONString] *)
Definition QuoteJSONString (s : string) : string :=
  String DQUOTE (json_escape_all s) ++ String DQUOTE "".

Definition or_null (o : option string) : string :=
  match o with
  | Some s => s
  | None => "null"
  end.

(** [SerializeJSONProperty], with [SerializeJSONObject] and
    [SerializeJSONArray] inlined; [None] stands for [undefined].  [gap] is
    the indentation unit and [indent] the current indentation. *)
Fixpoint SerializeJSONProperty (gap indent : string) (v : value) : option string :=
  match v with
  | VUndefined => None
  | VNull => Some "null"
  | VBool true => Some "true"
  | VBool false => Some "false"
  | VNum n => Some (if Number_isFinite n then Number_toString n else "null")
  | VStr s => Some (QuoteJSONString s)
  | VArr l =>
      let stepback := indent in
      let indent := indent ++ gap in
      let partial := map (fun e => or_null (SerializeJSONProperty gap indent e)) l in
      match partial with
      | [] => Some "[]"
      | _ =>
          if gap =? "" then Some ("[" ++ join "," partial ++ "]")
          else
            let separator := "," ++ LF ++ indent in
            Some ("[" ++ LF ++ indent ++ join separator partial ++ LF ++ stepback ++ "]")
      end
  | VObj ps =>
      let stepback := indent in
      let indent := indent ++ gap in
      let partial :=
        flat_map (fun kv =>
                    match SerializeJSONProperty gap indent (snd kv) with
                    | Some strP =>
                        [QuoteJSONString (fst kv) ++ ":"
                           ++ (if gap =? "" then "" else " ") ++ strP]
                    | None => []
                    end) ps in
      match partial with
      | [] => Some "{}"
      | _ =>
          if gap =? "" then Some ("{" ++ join "," partial ++ "}")
          else
            let separator := "," ++ LF ++ indent in
            Some ("{" ++ LF ++ indent ++ join separator partial ++ LF ++ stepback ++ "}")
      end
  end.

(** [JSON.stringify(v)] *)
Definition JSON_stringify (v : value) : option string :=
  SerializeJSONProperty "" "" v.

(** [JSON.stringify(v, null, spaces)] for [0 <= spaces]; the gap is at
    most ten spaces. *)
Definition JSON_stringify_indented (v : value) (spaces : nat) : option string :=
  SerializeJSONProperty (repeat_string " " (Nat.min spaces 10)) "" v.

(** A string or [undefined] inside a template literal. *)
Definition interpolate (o : option string) : string :=
  match o with
  | Some s => s
  | None => "undefined"
  end.

(** ** encodeURIComponent *)

Definition is_uri_unreserved (c : ascii) : bool :=
  let n := nat_of_ascii c in
  ((65 <=? n)%nat && (n <=? 90)%nat) || ((97 <=? n)%nat && (n <=? 122)%nat)
  || ((48 <=? n)%nat && (n <=? 57)%nat)
  || match n with
     | 45 | 95 | 46 | 33 | 126 | 42 | 39 | 40 | 41 => true
     | _ => false
     end.

Definition percent_byte (n : nat) : string :=
  String "%"%char (String (hex_digit true (n / 16)) (String (hex_digit true (n mod 16)) "")).

(** The code units of the model are the code points below 256; those from
    128 on take two bytes in UTF-8. *)
Definition percent_encode (c : ascii) : string :=
  let n := nat_of_ascii c in
  if is_uri_unreserved c then String c ""
  else if (n <? 128)%nat then percent_byte n
  else percent_byte (192 + n / 64) ++ percent_byte (128 + n mod 64).

Fixpoint encodeURIComponent (s : string) : string :=
  match s with
  | EmptyString => EmptyString
  | String c s' => percent_encode c ++ encodeURIComponent s'
  end.

End JS.

(* ===================================================================== *)
(** * The data loader (dataLoader.js) *)
(* ===================================================================== *)

Module DataLoader.
Import JS.

(** What the program reads of the [Response] that [fetch] resolves to:
    [response.ok], [response.status] and the outcome of
    [await response.text()]. *)
Record Response : Type := {
  ok : bool;
  status : nat;
  text : result string
}.

Definition default_delimiter : string := ",".
Definition default_type : string := "csv".
Definition default_maxRows : Z := 50.

(** The arrow function mapped over the header fields and over the fields
    of each data line: [x => x.trim().replace(/^"|"$/g, '')]. *)
Definition clean_field (field : string) : string :=
  replace_edge_quotes (trim field).

(** [values[index]] *)
Definition cell (values : list string) (index : nat) : value :=
  match nth_error values index with
  | Some s => VStr s
  | None => VUndefined
  end.

(** The body of the [for] loop of [parseCSV], for the line [lines[i]]. *)
Definition parseCSV_step (delimiter : string) (headers : list string)
    (data : list value) (line : string) : list value :=
  let values := map clean_field (split delimiter line) in
  if (List.length values =? List.length headers)%nat then
    let row :=
      forEach headers (fun row header index => obj_set row header (cell values index)) [] in
    (data ++ [VObj row])%list
  else data.

(** [parseCSV(csvText, delimiter)].  The loop runs over [lines[1]],
    [lines[2]], ... in order, that is over [skipn 1 lines]. *)
Definition parseCSV (csvText delimiter : string) : list value :=
  let lines := split LF (trim csvText) in
  if (List.length lines =? 0)%nat then []
  else
    let headers := map clean_field (split delimiter (hd "" lines)) in
    fold_left (parseCSV_step delimiter headers) (skipn 1 lines) [].

(** [formatDataForAI(data, maxRows)] *)
Definition formatDataForAI (data : value) (maxRows : Z) : result string :=
  match data with
  | VArr rows =>
      if (List.length rows =? 0)%nat then Ok "No data available."
      else
        let limitedData := slice0 rows maxRows in
        bind (Object_keys (element limitedData 0)) (fun headers =>
        let formatted :=
          "Data Summary (" ++ nat_to_string (List.length rows) ++ " total rows, showing "
            ++ nat_to_string (List.length limitedData) ++ "):" ++ LF ++ LF in
        let formatted := formatted ++ "Columns: " ++ join ", " headers ++ LF ++ LF in
        let formatted := formatted ++ "Sample Data:" ++ LF in
        Ok (forEach limitedData
              (fun formatted row index =>
                 formatted ++ "Row " ++ nat_to_string (index + 1) ++ ": "
                   ++ interpolate (JSON_stringify row) ++ LF)
              formatted))
  | _ => Ok "No data available."
  end.

(** [createDataContextPrompt(data, basePrompt, maxRows)] *)
Definition createDataContextPrompt (data : value) (basePrompt : string) (maxRows : Z)
  : result string :=
  bind (if Array_isArray data then formatDataForAI data maxRows
        else Ok (interpolate (JSON_stringify_indented data 2)))
       (fun dataContext =>
  Ok (basePrompt ++ LF ++ LF
        ++ "You have access to the following dataset:" ++ LF ++ LF
        ++ dataContext ++ LF ++ LF
        ++ "When answering questions, use this data to provide accurate and relevant responses. You can analyze trends, provide statistics, and answer specific questions about the data.")).

(** The network and the JSON decoder belong to the platform: [fetch] and
    [JSON.parse] are parameters.  Writes to the console are not part of
    the model. *)
Section Platform.

Variable fetch : string -> result Response.
Variable JSON_parse : string -> result value.

(** [fetchRemoteData(url)] *)
Definition fetchRemoteData (url : string) : result string :=
  try_catch
    (bind (fetch url) (fun response =>
       if negb (ok response) then
         Throw (Error ("HTTP error! status: " ++ nat_to_string (status response)))
       else text response))
    (fun error => Throw error).

(** [parseJSON(jsonText)] *)
Definition parseJSON (jsonText : string) : result value :=
  try_catch (JSON_parse jsonText) (fun error => Throw error).

(** [loadRemoteData(url, type)] *)
Definition loadRemoteData (url type : string) : result value :=
  bind (fetchRemoteData url) (fun rawData =>
    if type =? "csv" then Ok (VArr (parseCSV rawData default_delimiter))
    else if type =? "json" then parseJSON rawData
    else Throw (Error ("Unsupported data type: " ++ type))).

End Platform.

End DataLoader.

(* ===================================================================== *)
(** * The chart generator (chartGenerator.js) *)
(* ===================================================================== *)

Module ChartGenerator.
Import JS.

Definition str (s : string) : value := VStr s.

(** [generateQuickChartUrl(config)] *)
Definition generateQuickChartUrl (config : value) : string :=
  let encodedConfig := encodeURIComponent (interpolate (JSON_stringify config)) in
  "https://quickchart.io/chart?c=" ++ encodedConfig ++ "&width=600&height=400".

(** [plugins.title] in the options of every chart. *)
Definition title_plugin (title : value) : value :=
  VObj [("display", VBool true); ("text", title);
        ("font", VObj [("size", VNum (num 16))])].

Definition legend_plugin (position : string) : value :=
  VObj [("display", VBool true); ("position", str position)].

Definition line_default_border : string := "rgb(75, 192, 192)".
Definition line_default_background : string := "rgba(75, 192, 192, 0.2)".
Definition bar_default_background : string := "rgba(54, 162, 235, 0.5)".
Definition bar_default_border : string := "rgb(54, 162, 235)".
Definition scatter_default_background : string := "rgb(255, 99, 132)".

Definition pie_default_colors : list string :=
  ["rgba(255, 99, 132, 0.8)";
   "rgba(54, 162, 235, 0.8)";
   "rgba(255, 206, 86, 0.8)";
   "rgba(75, 192, 192, 0.8)";
   "rgba(153, 102, 255, 0.8)"].

(** The callback of [datasets.map] in [createLineChart]. *)
Definition line_series (dataset : value) : result value :=
  bind (prop dataset "label") (fun label =>
  bind (prop dataset "data") (fun data =>
  bind (prop dataset "color") (fun color =>
  Ok (VObj [("label", label);
            ("data", data);
            ("borderColor", js_or color (str line_default_border));
            ("backgroundColor", js_or color (str line_default_background));
            ("tension", VNum (Finite false 1 (-1)))])))).

(** [createLineChart({ title, labels, datasets })] *)
Definition createLineChart (args : value) : result value :=
  bind (prop args "title") (fun title =>
  bind (prop args "labels") (fun labels =>
  bind (prop args "datasets") (fun datasets =>
  bind (Array_map datasets line_series) (fun series =>
  Ok (VObj
    [("type", str "line");
     ("data", VObj [("labels", labels); ("datasets", series)]);
     ("options", VObj
        [("responsive", VBool true);
         ("plugins", VObj [("title", title_plugin title);
                           ("legend", legend_plugin "top")]);
         ("scales", VObj [("y", VObj [("beginAtZero", VBool true)])])])]))))).

(** The callback of [datasets.map] in [createBarChart]. *)
Definition bar_series (dataset : value) : result value :=
  bind (prop dataset "label") (fun label =>
  bind (prop dataset "data") (fun data =>
  bind (prop dataset "color") (fun color =>
  Ok (VObj [("label", label);
            ("data", data);
            ("backgroundColor", js_or color (str bar_default_background));
            ("borderColor", js_or color (str bar_default_border));
            ("borderWidth", VNum (num 1))])))).

(** [createBarChart({ title, labels, datasets })] *)
Definition createBarChart (args : value) : result value :=
  bind (prop args "title") (fun title =>
  bind (prop args "labels") (fun labels =>
  bind (prop args "datasets") (fun datasets =>
  bind (Array_map datasets bar_series) (fun series =>
  Ok (VObj
    [("type", str "bar");
     ("data", VObj [("labels", labels); ("datasets", series)]);
     ("options", VObj
        [("responsive", VBool true);
         ("plugins", VObj [("title", title_plugin title);
                           ("legend", legend_plugin "top")]);
         ("scales", VObj [("y", VObj [("beginAtZero", VBool true)])])])]))))).

(** [createPieChart({ title, labels, data, colors })] *)
Definition createPieChart (args : value) : result value :=
  bind (prop args "title") (fun title =>
  bind (prop args "labels") (fun labels =>
  bind (prop args "data") (fun data =>
  bind (prop args "colors") (fun colors =>
  Ok (VObj
    [("type", str "pie");
     ("data", VObj
        [("labels", labels);
         ("datasets", VArr
            [VObj [("data", data);
                   ("backgroundColor",
                    js_or colors (VArr (map str pie_default_colors)))]])]);
     ("options", VObj
        [("responsive", VBool true);
         ("plugins", VObj [("title", title_plugin title);
                           ("legend", legend_plugin "right")])])]))))).

(** The callback of [datasets.map] in [createScatterPlot]. *)
Definition scatter_series (dataset : value) : result value :=
  bind (prop dataset "label") (fun label =>
  bind (prop dataset "data") (fun data =>
  bind (prop dataset "color") (fun color =>
  Ok (VObj [("label", label);
            ("data", data);
            ("backgroundColor", js_or color (str scatter_default_background))])))).

(** [createScatterPlot({ title, datasets })] *)
Definition createScatterPlot (args : value) : result value :=
  bind (prop args "title") (fun title =>
  bind (prop args "datasets") (fun datasets =>
  bind (Array_map datasets scatter_series) (fun series =>
  Ok (VObj
    [("type", str "scatter");
     ("data", VObj [("datasets", series)]);
     ("options", VObj
        [("responsive", VBool true);
         ("plugins", VObj [("title", title_plugin title)]);
         ("scales", VObj [("x", VObj [("type", str "linear");
                                      ("position", str "bottom")])])])])))).

(** The [name] fields of [chartFunctionDefinitions], the function
    definitions registered with the model.  The rest of each definition
    (description and parameter schema) is data that no function of the
    module reads. *)
Definition chartFunctionNames : list string :=
  ["create_line_chart"; "create_bar_chart"; "create_pie_chart"; "create_scatter_plot"].

Definition quot : string := String DQUOTE "".

(** The object returned by [handleChartFunction] once [config] is built. *)
Definition chart_message (chartUrl : string) (title : value) : value :=
  VObj
    [("html", str
        ("<div style=" ++ quot ++ "margin: 10px 0;" ++ quot ++ ">" ++ LF
           ++ "      <img src=" ++ quot ++ chartUrl ++ quot
           ++ " alt=" ++ quot ++ ToString title ++ quot
           ++ " style=" ++ quot
           ++ "max-width: 100%; border-radius: 8px; box-shadow: 0 2px 8px rgba(0,0,0,0.1);"
           ++ quot ++ " />" ++ LF
           ++ "    </div>"));
     ("text", str ("Here's your " ++ ToString title))].

(** [handleChartFunction(functionName, args)].  The [switch] either
    assigns [config] or returns from its [default] branch. *)
Definition handleChartFunction (functionName : string) (args : value) : result value :=
  let finish (config : result value) : result value :=
    bind config (fun config =>
    let chartUrl := generateQuickChartUrl config in
    bind (prop args "title") (fun title =>
    Ok (chart_message chartUrl title))) in
  if functionName =? "create_line_chart" then finish (createLineChart args)
  else if functionName =? "create_bar_chart" then finish (createBarChart args)
  else if functionName =? "create_pie_chart" then finish (createPieChart args)
  else if functionName =? "create_scatter_plot" then finish (createScatterPlot args)
  else Ok (str ("Error: Unknown function " ++ functionName)).

End ChartGenerator.

(* ===================================================================== *)
(** * The example component (DataLoaderExample.js) *)
(* ===================================================================== *)

Module DataLoaderExample.
Import JS DataLoader.

(** The state of the component, one field per [useState]. *)
Record State : Type := {
  directConnection : value;
  loading : bool;
  error : option string;
  dataUrl : string;
  apiKey : string;
  showKeyInput : bool
}.

(** The arguments of the [useState] calls. *)
Definition initial_state : State :=
  {| directConnection := VNull;
     loading := true;
     error := None;
     dataUrl := "https://storage.googleapis.com/gdsshopify/MonteCarlo.csv";
     apiKey := "";
     showKeyInput := true |}.

(** A call of one of the state setters; [SetError None] is
    [setError(null)]. *)
Inductive update : Type :=
| SetDirectConnection (v : value)
| SetLoading (b : bool)
| SetError (e : option string)
| SetDataUrl (s : string)
| SetApiKey (s : string)
| SetShowKeyInput (b : bool).

Definition apply_update (st : State) (u : update) : State :=
  match u with
  | SetDirectConnection v =>
      {| directConnection := v; loading := loading st; error := error st;
         dataUrl := dataUrl st; apiKey := apiKey st; showKeyInput := showKeyInput st |}
  | SetLoading b =>
      {| directConnection := directConnection st; loading := b; error := error st;
         dataUrl := dataUrl st; apiKey := apiKey st; showKeyInput := showKeyInput st |}
  | SetError e =>
      {| directConnection := directConnection st; loading := loading st; error := e;
         dataUrl := dataUrl st; apiKey := apiKey st; showKeyInput := showKeyInput st |}
  | SetDataUrl s =>
      {| directConnection := directConnection st; loading := loading st; error := error st;
         dataUrl := s; apiKey := apiKey st; showKeyInput := showKeyInput st |}
  | SetApiKey s =>
      {| directConnection := directConnection st; loading := loading st; error := error st;
         dataUrl := dataUrl st; apiKey := s; showKeyInput := showKeyInput st |}
  | SetShowKeyInput b =>
      {| directConnection := directConnection st; loading := loading st; error := error st;
         dataUrl := dataUrl st; apiKey := apiKey st; showKeyInput := b |}
  end.

(** The state after a sequence of setter calls. *)
Definition apply_updates (st : State) (us : list update) : State :=
  fold_left apply_update us st.

(** [s.endsWith(suffix)] *)
Fixpoint endsWith (s suffix : string) : bool :=
  (s =? suffix)
  || match s with
     | EmptyString => false
     | String _ s' => endsWith s' suffix
     end.

(** [err.message] *)
Definition message_of (err : exn) : string :=
  match err with
  | TypeError m | SyntaxError m | Error m => m
  end.

Definition assistant_prompt : string :=
  "You are a helpful assistant that can analyze and answer questions about the provided dataset. "
    ++ "When users ask about the data, provide clear and accurate answers based on the information available.".

(** The object passed to [setDirectConnection]. *)
Definition openAI_connection (key systemPrompt : string) : value :=
  VObj [("openAI", VObj
    [("key", VStr key);
     ("chat", VObj
        [("system_prompt", VStr systemPrompt);
         ("model", VStr "gpt-4o");
         ("max_tokens", VNum (Finite false 2 3));
         ("temperature", VNum (Finite false 7 (-1)))])])].

Section Platform.

Variable fetch : string -> result Response.
Variable JSON_parse : string -> result value.

(** The [try] block of [loadData]: the setters it calls when it runs to
    its end, or the error it throws.  Both setter calls come after the
    last statement that can throw. *)
Definition loadData_try (url key : string) : result (list update) :=
  let fileType := if endsWith url ".json" then "json" else "csv" in
  bind (loadRemoteData fetch JSON_parse url fileType) (fun data =>
  if negb (ToBoolean data)
     || (Array_isArray data
         && match data with
            | VArr l => (List.length l =? 0)%nat
            | _ => false
            end)
  then Throw (Error "No data loaded from file")
  else
    bind (createDataContextPrompt data assistant_prompt 50) (fun systemPrompt =>
    Ok [SetDirectConnection (openAI_connection key systemPrompt);
        SetShowKeyInput false])).

(** [loadData(url, key)]: the setter calls it makes, in order. *)
Definition loadData (url key : string) : list update :=
  ([SetLoading true; SetError None]
     ++ match loadData_try url key with
        | Ok updates => updates
        | Throw err => [SetError (Some ("Failed to load data: " ++ message_of err)%string)]
        end
     ++ [SetLoading false])%list.

(** [handleLoadData()], in a render whose state is [st]. *)
Definition handleLoadData (st : State) : list update :=
  if trim (apiKey st) =? "" then [SetError (Some "Please enter your OpenAI API key")]
  else if trim (dataUrl st) =? "" then [SetError (Some "Please enter a data URL")]
  else loadData (dataUrl st) (apiKey st).

(** [handleReset()] *)
Definition handleReset : list update :=
  [SetShowKeyInput true; SetDirectConnection VNull; SetError None].

(** What the user can do to the rendered component: edit one of the two
    inputs, press the load button, press the reset button. *)
Inductive event : Type :=
| ChangeDataUrl (s : string)
| ChangeApiKey (s : string)
| ClickLoad
| ClickReset.

(** The inputs and the load button are rendered under [showKeyInput], the
    load button with [disabled={loading}]; the reset button is rendered
    under [!showKeyInput && directConnection]. *)
Definition enabled (st : State) (ev : event) : bool :=
  match ev with
  | ChangeDataUrl _ | ChangeApiKey _ => showKeyInput st
  | ClickLoad => showKeyInput st && negb (loading st)
  | ClickReset => negb (showKeyInput st) && ToBoolean (directConnection st)
  end.

Definition handler (st : State) (ev : event) : list update :=
  match ev with
  | ChangeDataUrl s => [SetDataUrl s]
  | ChangeApiKey s => [SetApiKey s]
  | ClickLoad => handleLoadData st
  | ClickReset => handleReset
  end.

(** States the component can be in after some sequence of events, each
    handled to its end before the next. *)
Inductive reachable : State -> Prop :=
| reachable_initial : reachable initial_state
| reachable_step st ev :
    reachable st -> enabled st ev = true ->
    reachable (apply_updates st (handler st ev)).

End Platform.

End DataLoaderExample.

(* ===================================================================== *)
(** * Vocabulary of the specification *)
(* ===================================================================== *)

Module Vocabulary.
Import JS DataLoader ChartGenerator.

(** The lines [parseCSV] works on, its header names, its data lines and
    the fields of a line. *)
Definition csv_lines (csvText : string) : list string := split LF (trim csvText).

Definition header_names (csvText delimiter : string) : list string :=
  map clean_field (split delimiter (hd "" (csv_lines csvText))).

Definition data_lines (csvText : string) : list string := skipn 1 (csv_lines csvText).

Definition fields (delimiter line : string) : list string :=
  map clean_field (split delimiter line).

Definition has_header_count (headers values : list string) : bool :=
  (List.length values =? List.length headers)%nat.

(** The row object built by the [forEach] of [parseCSV]. *)
Definition row_of (headers values : list string) : value :=
  VObj (forEach headers (fun row header index => obj_set row header (cell values index)) []).

(** Key lists: the effect of an assignment on the list of own keys. *)
Fixpoint insert_key (i : N) (k : string) (ks : list string) : list string :=
  match ks with
  | [] => [k]
  | k' :: ks' =>
      match array_index k' with
      | Some j => if (j <? i)%N then k' :: insert_key i k ks' else k :: ks
      | None => k :: ks
      end
  end.

Definition add_key (ks : list string) (k : string) : list string :=
  if k =? "__proto__" then ks
  else if existsb (String.eqb k) ks then ks
  else
    match array_index k with
    | Some i => insert_key i k ks
    | None => (ks ++ [k])%list
    end.

(** The own keys of an object that was assigned the names [hs] in turn. *)
Definition own_keys (hs : list string) : list string := fold_left add_key hs [].

(** Position of the last occurrence of [k] in [hs]. *)
Fixpoint find_last (k : string) (hs : list string) : option nat :=
  match hs with
  | [] => None
  | h :: hs' =>
      match find_last k hs' with
      | Some j => Some (S j)
      | None => if h =? k then Some 0 else None
      end
  end.

(** Header names that are pairwise distinct, and none of which is
    [__proto__] or an array index. *)
Definition plain_names (hs : list string) : Prop :=
  NoDup hs /\ ~ In "__proto__" hs /\ (forall h, In h hs -> array_index h = None).

(** A row of a data set is an object. *)
Definition is_row (v : value) : Prop := exists ps, v = VObj ps.

(** The line that [formatDataForAI] emits for the row at [index]. *)
Definition row_line (index : nat) (row : value) : string :=
  "Row " ++ nat_to_string (index + 1) ++ ": " ++ interpolate (JSON_stringify row).

Fixpoint row_lines_from (index : nat) (rows : list value) : list string :=
  match rows with
  | [] => []
  | row :: rows' => row_line index row :: row_lines_from (S index) rows'
  end.

Definition row_lines (rows : list value) : list string := row_lines_from 0 rows.

(** No line feed among the code units of a string. *)
Fixpoint no_lf (s : string) : bool :=
  match s with
  | EmptyString => true
  | String c s' => negb (Ascii.eqb c "010"%char) && no_lf s'
  end.

(** [config.data.datasets] *)
Definition series_of (config : value) : result value :=
  bind (prop config "data") (fun data => prop data "datasets").

(** A value whose properties can be read: anything but [undefined] and
    [null]. *)
Definition readable (v : value) : Prop := v <> VUndefined /\ v <> VNull.

(** The colour a series supplies: its [color] property when that is
    truthy. *)
Definition supplied_color (dataset : value) : option value :=
  match prop dataset "color" with
  | Ok c => if ToBoolean c then Some c else None
  | Throw _ => None
  end.

(** The colour of an output series: the supplied one, or else the given
    default. *)
Definition color_or (dataset : value) (default : string) : value :=
  match supplied_color dataset with
  | Some c => c
  | None => VStr default
  end.

(** What the claim on series asks of an input series and the series built
    from it: same [data], and the two colours as [color_or] gives them. *)
Definition series_preserved (first_color first_default second_color second_default : string)
    (dataset out : value) : Prop :=
  prop out "data" = prop dataset "data" /\
  prop out first_color = Ok (color_or dataset first_default) /\
  prop out second_color = Ok (color_or dataset second_default).

(** The shape of a [RenderPayload]: an object with string properties
    [html] and [text]. *)
Definition is_render_payload (v : value) : Prop :=
  exists ps html text,
    v = VObj ps /\ own_get ps "html" = Some (VStr html) /\ own_get ps "text" = Some (VStr text).

(** Lines, each terminated by a line feed. *)
Fixpoint unlines (ls : list string) : string :=
  match ls with
  | [] => EmptyString
  | l :: ls' => l ++ LF ++ unlines ls'
  end.

(** The callback of the [forEach] in [parseCSV], for the fields [values]
    of the current line. *)
Definition assign_cells (values : list string) : props -> string -> nat -> props :=
  fun row header index => obj_set row header (cell values index).

(** The callback of the [forEach] in [formatDataForAI]. *)
Definition append_row_line : string -> value -> nat -> string :=
  fun formatted row index =>
    formatted ++ "Row " ++ nat_to_string (index + 1) ++ ": "
      ++ interpolate (JSON_stringify row) ++ LF.

(** The prompt of [createDataContextPrompt] around a dataset context. *)
Definition prompt_around (basePrompt dataContext : string) : string :=
  basePrompt ++ LF ++ LF
    ++ "You have access to the following dataset:" ++ LF ++ LF
    ++ dataContext ++ LF ++ LF
    ++ "When answering questions, use this data to provide accurate and relevant responses. You can analyze trends, provide statistics, and answer specific questions about the data.".

(** Sample inputs. *)
Definition sample_csv : string := "a,b" ++ LF ++ "1,2" ++ LF ++ "3,4".
Definition ragged_csv : string := "a,b" ++ LF ++ "1,2,3" ++ LF ++ "4,5".
Definition repeated_header_csv : string := "a,a" ++ LF ++ "1,2".
Definition year_header_csv : string := "name,2020" ++ LF ++ "x,1".
Definition proto_header_csv : string := "__proto__,b" ++ LF ++ "1,2".

Definition sample_series : list value :=
  [VObj [("label", VStr "north"); ("data", VArr [VNum (num 1); VNum (num 2)])];
   VObj [("label", VStr "south"); ("data", VArr [VNum (num 3); VNum (num 4)]);
         ("color", VStr "red")]].

Definition sample_chart_args : value :=
  VObj [("title", VStr "T");
        ("labels", VArr [VStr "a"; VStr "b"]);
        ("datasets", VArr sample_series)].

Definition sample_pie_args : value :=
  VObj [("title", VStr "T");
        ("labels", VArr [VStr "a"; VStr "b"]);
        ("data", VArr [VNum (num 1); VNum (num 2)])].

Definition sample_fetch (url : string) : result Response :=
  Ok {| ok := true; status := 200; text := Ok sample_csv |}.

Definition sample_JSON_parse (jsonText : string) : result value :=
  Throw (SyntaxError "Unexpected token").

Definition single_row : list value := [VObj [("a", VStr "1")]].

Definition sample_rows : list value :=
  [VObj [("a", VStr "1"); ("b", VStr "2")];
   VObj [("a", VStr "3"); ("b", VStr "4")];
   VObj [("a", VStr "5"); ("b", VStr "6")]].

End Vocabulary.

(** Further vocabulary, for the properties beyond the specification's own
    list. *)
Module Terms.
Import JS DataLoader ChartGenerator DataLoaderExample Vocabulary.

(** Only white space among the code units of a string. *)
Fixpoint all_white_space (s : string) : bool :=
  match s with
  | EmptyString => true
  | String c s' => is_white_space c && all_white_space s'
  end.

(** Number of occurrences of a code unit. *)
Fixpoint count_char (c : ascii) (s : string) : nat :=
  match s with
  | EmptyString => 0
  | String a s' => (if Ascii.eqb c a then 1 else 0) + count_char c s'
  end.

(** A property whose value is a string. *)
Definition string_valued (kv : string * value) : Prop := exists s, snd kv = VStr s.



(** [undefined] or [null]. *)
Definition nullish (v : value) : bool :=
  match v with
  | VUndefined | VNull => true
  | _ => false
  end.

(** Arguments whose [datasets] is an array of values that properties can
    be read from. *)
Definition has_series (args : value) : Prop :=
  exists datasets, prop args "datasets" = Ok (VArr datasets) /\ Forall readable datasets.

(** What [createScatterPlot] keeps of an input series. *)
Definition scatter_series_preserved (dataset out : value) : Prop :=
  prop out "label" = prop dataset "label" /\
  prop out "data" = prop dataset "data" /\
  prop out "backgroundColor" = Ok (color_or dataset scatter_default_background).


(** The builder behind each registered function name. *)
Definition builder_of (functionName : string) : option (value -> result value) :=
  if functionName =? "create_line_chart" then Some createLineChart
  else if functionName =? "create_bar_chart" then Some createBarChart
  else if functionName =? "create_pie_chart" then Some createPieChart
  else if functionName =? "create_scatter_plot" then Some createScatterPlot
  else None.

(** [out] is the text of [formatDataForAI] for [total] rows of which the
    rows [shown] are listed: the count statement, the columns of the first
    shown row, and one line per shown row, numbered from 1, in order. *)
Definition lists_rows (out : result string) (total : nat) (shown : list value) : Prop :=
  exists headers lines,
    Object_keys (element shown 0) = Ok headers /\
    out = Ok ("Data Summary (" ++ nat_to_string total ++ " total rows, showing "
                ++ nat_to_string (List.length shown) ++ "):" ++ LF ++ LF
                ++ "Columns: " ++ join ", " headers ++ LF ++ LF
                ++ "Sample Data:" ++ LF
                ++ unlines lines) /\
    split LF (unlines lines) = (lines ++ [""])%list /\
    List.length lines = List.length shown /\
    forall i row,
      nth_error shown i = Some row ->
      nth_error lines i =
        Some ("Row " ++ nat_to_string (i + 1) ++ ": " ++ interpolate (JSON_stringify row)).

(** More sample inputs. *)
Definition header_only_csv : string := "a,b,c".

Definition sample_points : list value :=
  [VObj [("label", VStr "runs");
         ("data", VArr [VObj [("x", VNum (num 1)); ("y", VNum (num 2))]])];
   VObj [("label", VStr "misses");
         ("data", VArr [VObj [("x", VNum (num 3)); ("y", VNum (num 4))]]);
         ("color", VStr "blue")]].

Definition sample_scatter_args : value :=
  VObj [("title", VStr "S"); ("datasets", VArr sample_points)].

Definition sample_colored_pie_args : value :=
  VObj [("title", VStr "T");
        ("labels", VArr [VStr "a"; VStr "b"]);
        ("data", VArr [VNum (num 1); VNum (num 2)]);
        ("colors", VArr [VStr "red"; VStr "blue"])].

Definition failing_fetch (url : string) : result Response :=
  Throw (TypeError "Failed to fetch").

Definition header_only_fetch (url : string) : result Response :=
  Ok {| ok := true; status := 200; text := Ok header_only_csv |}.

Definition keyed_state : State :=
  {| directConnection := VNull; loading := false; error := None;
     dataUrl := "https://example.org/data.csv"; apiKey := "sk-test";
     showKeyInput := true |}.

End Terms.

(* ===================================================================== *)
(** * Properties of the runtime model *)
(* ===================================================================== *)

Module JSFacts.
Import JS Vocabulary.

Lemma split_scan_nonempty sep skip s : split_scan sep skip s <> [].
Proof.
  revert skip. induction s as [|c s IH]; intros skip; simpl.
  - discriminate.
  - destruct skip as [|k].
    + destruct (is_prefix sep (String c s)); [discriminate|].
      destruct (split_scan sep 0 s); discriminate.
    + apply IH.
Qed.

Lemma split_LF_nonempty s : split LF s <> [].
Proof. unfold split, LF. apply split_scan_nonempty. Qed.

(** *** Reading after writing *)

Lemma own_get_update ps h v k :
  own_get (update_own ps h v) k =
  if h =? k then (if has_own ps h then Some v else None) else own_get ps k.
Proof.
  unfold has_own. induction ps as [|[k' v'] ps IH]; simpl.
  - destruct (h =? k); reflexivity.
  - destruct (String.eqb_spec k' h) as [->|Hne]; simpl.
    + destruct (String.eqb_spec h k) as [->|Hk]; [reflexivity|reflexivity].
    + rewrite IH. destruct (String.eqb_spec h k) as [->|Hk].
      * destruct (String.eqb_spec k' k); [congruence|reflexivity].
      * reflexivity.
Qed.

Lemma own_get_insert_index i h v ps k :
  has_own ps h = false ->
  own_get (insert_index i h v ps) k = if h =? k then Some v else own_get ps k.
Proof.
  unfold has_own. induction ps as [|[k' v'] ps IH]; simpl; intros Hfresh.
  - reflexivity.
  - destruct (String.eqb_spec k' h) as [->|Hne]; [discriminate|].
    destruct (array_index k') as [j|]; [destruct (j <? i)%N|]; simpl;
      try reflexivity.
    rewrite (IH Hfresh).
    destruct (String.eqb_spec h k) as [->|Hk]; [|reflexivity].
    destruct (String.eqb_spec k' k); [congruence|reflexivity].
Qed.

Lemma own_get_app_fresh ps h v k :
  has_own ps h = false ->
  own_get (ps ++ [(h, v)])%list k = if h =? k then Some v else own_get ps k.
Proof.
  unfold has_own. induction ps as [|[k' v'] ps IH]; simpl; intros Hfresh.
  - reflexivity.
  - destruct (String.eqb_spec k' h) as [->|Hne]; [discriminate|].
    rewrite (IH Hfresh).
    destruct (String.eqb_spec h k) as [->|Hk]; [|reflexivity].
    destruct (String.eqb_spec k' k); [congruence|reflexivity].
Qed.

Lemma own_get_define ps h v k :
  own_get (define_own ps h v) k = if h =? k then Some v else own_get ps k.
Proof.
  unfold define_own. destruct (has_own ps h) eqn:Hh.
  - rewrite own_get_update, Hh. reflexivity.
  - destruct (array_index h).
    + apply own_get_insert_index, Hh.
    + apply own_get_app_fresh, Hh.
Qed.

Lemma own_get_set ps h v k :
  k <> "__proto__" ->
  own_get (obj_set ps h v) k = if h =? k then Some v else own_get ps k.
Proof.
  intros Hk. unfold obj_set.
  destruct (String.eqb_spec h "__proto__") as [->|Hh].
  - destruct (String.eqb_spec "__proto__" k); [congruence|reflexivity].
  - apply own_get_define.
Qed.

(** *** Keys after writing *)

Lemma has_own_existsb ps k : has_own ps k = existsb (String.eqb k) (map fst ps).
Proof.
  unfold has_own. induction ps as [|[k' v'] ps IH]; simpl; [reflexivity|].
  rewrite (String.eqb_sym k k').
  destruct (k' =? k); simpl; [reflexivity|apply IH].
Qed.

Lemma keys_update ps k v : map fst (update_own ps k v) = map fst ps.
Proof.
  induction ps as [|[k' v'] ps IH]; simpl; [reflexivity|].
  destruct (k' =? k); simpl; [reflexivity|now rewrite IH].
Qed.

Lemma keys_insert_index i k v ps :
  map fst (insert_index i k v ps) = insert_key i k (map fst ps).
Proof.
  induction ps as [|[k' v'] ps IH]; simpl; [reflexivity|].
  destruct (array_index k') as [j|]; [destruct (j <? i)%N|]; simpl;
    try reflexivity.
  now rewrite IH.
Qed.

Lemma keys_set ps k v : map fst (obj_set ps k v) = add_key (map fst ps) k.
Proof.
  unfold obj_set, add_key, define_own.
  destruct (k =? "__proto__"); [reflexivity|].
  rewrite <- has_own_existsb.
  destruct (has_own ps k).
  - apply keys_update.
  - destruct (array_index k).
    + apply keys_insert_index.
    + now rewrite map_app.
Qed.

End JSFacts.

(* ===================================================================== *)
(** * Properties of the data loader *)
(* ===================================================================== *)

Module ParseFacts.
Import JS DataLoader Vocabulary JSFacts.

Lemma keys_forEach_from i hs vs st :
  map fst (forEach_from i hs (assign_cells vs) st) = fold_left add_key hs (map fst st).
Proof.
  revert i st. induction hs as [|h hs IH]; intros i st; simpl; [reflexivity|].
  rewrite IH. unfold assign_cells. now rewrite keys_set.
Qed.

Lemma get_forEach_from i hs vs st k :
  k <> "__proto__" ->
  own_get (forEach_from i hs (assign_cells vs) st) k =
  match find_last k hs with
  | Some j => Some (cell vs (i + j))
  | None => own_get st k
  end.
Proof.
  intros Hk. revert i st. induction hs as [|h hs IH]; intros i st; simpl; [reflexivity|].
  rewrite IH. destruct (find_last k hs) as [j|].
  - now rewrite Nat.add_succ_r.
  - unfold assign_cells. rewrite (own_get_set _ _ _ _ Hk).
    destruct (h =? k); [now rewrite Nat.add_0_r|reflexivity].
Qed.

Lemma find_last_of_last k hs i :
  nth_error hs i = Some k ->
  (forall i', i < i' -> nth_error hs i' <> Some k) ->
  find_last k hs = Some i.
Proof.
  revert i. induction hs as [|h hs IH]; intros i Hi Hlast.
  - destruct i; discriminate.
  - simpl. destruct i as [|i]; simpl in Hi.
    + injection Hi as ->.
      destruct (find_last k hs) as [j|] eqn:Hj.
      * exfalso.
        assert (Hnth : forall l j, find_last k l = Some j -> nth_error l j = Some k).
        { clear. induction l as [|a l IHl]; intros j; simpl; [discriminate|].
          destruct (find_last k l) as [j'|].
          - intros [= <-]. simpl. now apply IHl.
          - destruct (String.eqb_spec a k) as [->|]; [|discriminate].
            now intros [= <-]. }
        apply (Hlast (S j)); [lia|]. simpl. now apply Hnth.
      * now rewrite String.eqb_refl.
    + rewrite (IH i Hi); [reflexivity|].
      intros i' Hlt. apply (Hlast (S i')). lia.
Qed.

(** The loop of [parseCSV] appends, in order, one row per line that has
    the header count. *)
Lemma parseCSV_loop d hs ls acc :
  fold_left (parseCSV_step d hs) ls acc =
  (acc ++ map (row_of hs) (filter (has_header_count hs) (map (fields d) ls)))%list.
Proof.
  revert acc. induction ls as [|l ls IH]; intros acc; simpl.
  - now rewrite app_nil_r.
  - rewrite IH. unfold parseCSV_step at 1. fold (fields d l).
    unfold has_header_count at 2.
    destruct (List.length (fields d l) =? List.length hs)%nat; simpl.
    + now rewrite <- app_assoc.
    + reflexivity.
Qed.

Lemma parseCSV_rows text d :
  parseCSV text d =
  map (row_of (header_names text d))
      (filter (has_header_count (header_names text d))
              (map (fields d) (data_lines text))).
Proof.
  unfold parseCSV. fold (csv_lines text).
  destruct (csv_lines text) as [|l0 ls] eqn:Hl.
  - exfalso. apply (split_LF_nonempty (trim text)). exact Hl.
  - cbn [List.length Nat.eqb]. rewrite parseCSV_loop.
    unfold header_names, data_lines. rewrite Hl. reflexivity.
Qed.

Lemma filter_all {A : Type} (f : A -> bool) (l : list A) :
  (forall x, In x l -> f x = true) -> filter f l = l.
Proof.
  induction l as [|a l IH]; intros H; simpl; [reflexivity|].
  rewrite (H a (or_introl eq_refl)). f_equal. apply IH.
  intros x Hx. apply H. now right.
Qed.

Lemma row_of_keys hs vs : Object_keys (row_of hs vs) = Ok (own_keys hs).
Proof.
  unfold row_of, forEach, own_keys. cbn [Object_keys]. f_equal.
  exact (keys_forEach_from 0 hs vs []).
Qed.

(** *** Key lists *)

Lemma existsb_eqb_In k ks : existsb (String.eqb k) ks = true <-> In k ks.
Proof.
  rewrite existsb_exists. split.
  - intros [x [Hx Heq]]. apply String.eqb_eq in Heq. now subst.
  - intros H. exists k. split; [exact H|apply String.eqb_refl].
Qed.

Lemma In_insert_key i h ks k : In k (insert_key i h ks) <-> k = h \/ In k ks.
Proof.
  induction ks as [|k' ks IH]; simpl.
  - intuition.
  - destruct (array_index k') as [j|]; [destruct (j <? i)%N|]; simpl;
      rewrite ?IH; intuition.
Qed.

Lemma In_add_key ks h k :
  In k (add_key ks h) <-> In k ks \/ (k = h /\ h <> "__proto__").
Proof.
  unfold add_key.
  destruct (String.eqb_spec h "__proto__") as [->|Hp]; [intuition|].
  destruct (existsb (String.eqb h) ks) eqn:He.
  - apply existsb_eqb_In in He. split; [intuition|].
    intros [H|[-> _]]; assumption.
  - destruct (array_index h).
    + rewrite In_insert_key. intuition.
    + rewrite in_app_iff. simpl. intuition.
Qed.

Lemma In_fold_add_key hs ks k :
  In k (fold_left add_key hs ks) <-> In k ks \/ (In k hs /\ k <> "__proto__").
Proof.
  revert ks. induction hs as [|h hs IH]; intros ks; simpl.
  - intuition.
  - rewrite IH, In_add_key. split.
    + intros [[H|[-> Hp]]|[H Hp]]; auto.
    + intros [H|[[->|H] Hp]]; auto.
Qed.

Lemma NoDup_insert_key i h ks :
  ~ In h ks -> NoDup ks -> NoDup (insert_key i h ks).
Proof.
  induction ks as [|k' ks IH]; intros Hn Hd; simpl.
  - constructor; [intros []|constructor].
  - destruct (array_index k') as [j|]; [destruct (j <? i)%N|].
    + inversion Hd as [|? ? Hk' Hd']; subst. constructor.
      * rewrite In_insert_key. intros [->|H]; [apply Hn; now left|auto].
      * apply IH; [|exact Hd']. intros H. apply Hn. now right.
    + now constructor.
    + now constructor.
Qed.

Lemma NoDup_add_key ks h : NoDup ks -> NoDup (add_key ks h).
Proof.
  intros Hd. unfold add_key.
  destruct (h =? "__proto__"); [exact Hd|].
  destruct (existsb (String.eqb h) ks) eqn:He; [exact Hd|].
  assert (Hn : ~ In h ks).
  { intros H. apply existsb_eqb_In in H. congruence. }
  destruct (array_index h).
  - now apply NoDup_insert_key.
  - apply NoDup_app; [exact Hd|constructor; [intros []|constructor]|].
    intros x Hx [<-|[]]. contradiction.
Qed.

Lemma NoDup_fold_add_key hs ks : NoDup ks -> NoDup (fold_left add_key hs ks).
Proof.
  revert ks. induction hs as [|h hs IH]; intros ks Hd; simpl; [exact Hd|].
  apply IH, NoDup_add_key, Hd.
Qed.

Lemma fold_add_key_plain hs ks :
  NoDup (ks ++ hs) ->
  ~ In "__proto__" hs ->
  (forall h, In h hs -> array_index h = None) ->
  fold_left add_key hs ks = (ks ++ hs)%list.
Proof.
  revert ks. induction hs as [|h hs IH]; intros ks Hd Hp Hi; simpl.
  - now rewrite app_nil_r.
  - assert (Hstep : add_key ks h = (ks ++ [h])%list).
    { unfold add_key.
      destruct (String.eqb_spec h "__proto__") as [->|_].
      - exfalso. apply Hp. now left.
      - destruct (existsb (String.eqb h) ks) eqn:He.
        + exfalso. apply existsb_eqb_In in He.
          apply NoDup_remove_2 in Hd. apply Hd, in_or_app. now left.
        + rewrite (Hi h (or_introl eq_refl)). reflexivity. }
    rewrite Hstep, IH.
    + now rewrite <- app_assoc.
    + now rewrite <- app_assoc.
    + intros H. apply Hp. now right.
    + intros x Hx. apply Hi. now right.
Qed.

End ParseFacts.

Module ParseCSVSpec.
Import JS DataLoader Vocabulary JSFacts ParseFacts.

(** C1, as amended.  When every data line of the trimmed text has as many
    fields as the header line, [parseCSV] returns one row per data line, in
    order, and row [j] maps every header name other than [__proto__] to the
    cleaned (trimmed, unquoted) field of data line [j] found at the last
    position where that name occurs in the header line; for a name that
    occurs once this is its own position. *)
Theorem parseCSV_well_formed_rows (text d : string) :
  (forall line, In line (data_lines text) ->
     List.length (fields d line) = List.length (header_names text d)) ->
  List.length (parseCSV text d) = List.length (data_lines text) /\
  forall j line, nth_error (data_lines text) j = Some line ->
    exists ps,
      nth_error (parseCSV text d) j = Some (VObj ps) /\
      forall i h,
        nth_error (header_names text d) i = Some h ->
        h <> "__proto__" ->
        (forall i', i < i' -> nth_error (header_names text d) i' <> Some h) ->
        exists v, nth_error (fields d line) i = Some v /\ own_get ps h = Some (VStr v).
Proof.
  intros Hwf. rewrite parseCSV_rows.
  set (hs := header_names text d) in *.
  rewrite filter_all.
  2:{ intros vs Hvs. apply in_map_iff in Hvs as [line [<- Hline]].
      unfold has_header_count. apply Nat.eqb_eq. now apply Hwf. }
  split.
  - now rewrite !length_map.
  - intros j line Hj.
    exists (forEach hs (assign_cells (fields d line)) []). split.
    + rewrite map_map. now rewrite nth_error_map, Hj.
    + intros i h Hi Hp Hlast.
      assert (Hlen : List.length (fields d line) = List.length hs).
      { apply Hwf. eapply nth_error_In, Hj. }
      assert (Hlt : i < List.length (fields d line)).
      { rewrite Hlen. apply nth_error_Some. congruence. }
      destruct (nth_error (fields d line) i) as [v|] eqn:Hv.
      2:{ apply nth_error_None in Hv. lia. }
      exists v. split; [reflexivity|].
      unfold forEach. rewrite (get_forEach_from 0 hs _ [] h Hp).
      rewrite (find_last_of_last h hs i Hi Hlast). simpl.
      unfold cell. now rewrite Hv.
Qed.

(** The hypothesis of [parseCSV_well_formed_rows] holds of a header line and
    two data lines of two fields each, which give two rows. *)
Lemma parseCSV_well_formed_rows_witness :
  (forall line, In line (data_lines sample_csv) ->
     List.length (fields "," line) = List.length (header_names sample_csv ",")) /\
  List.length (parseCSV sample_csv ",") = 2.
Proof.
  assert (H : forall line, In line (data_lines sample_csv) ->
     List.length (fields "," line) = List.length (header_names sample_csv ",")).
  { intros line Hin. vm_compute in Hin.
    destruct Hin as [<-|[<-|[]]]; reflexivity. }
  split; [exact H|].
  exact (proj1 (parseCSV_well_formed_rows sample_csv "," H)).
Defined.

(** C1 as stated fails: with the header line [a,a] both header positions
    name the same key, and the row maps it to the field at the second
    position, not to the field at the first. *)
Lemma parseCSV_positional_counterexample :
  ~ (forall text d,
       (forall line, In line (data_lines text) ->
          List.length (fields d line) = List.length (header_names text d)) ->
       List.length (parseCSV text d) = List.length (data_lines text) /\
       forall j line, nth_error (data_lines text) j = Some line ->
         exists ps,
           nth_error (parseCSV text d) j = Some (VObj ps) /\
           forall i h,
             nth_error (header_names text d) i = Some h ->
             exists v, nth_error (fields d line) i = Some v /\
                       own_get ps h = Some (VStr v)).
Proof.
  intros H. specialize (H repeated_header_csv ",").
  destruct H as [_ H].
  - intros line Hin. vm_compute in Hin. destruct Hin as [<-|[]]. reflexivity.
  - assert (Hn : nth_error (data_lines repeated_header_csv) 0 = Some "1,2")
      by (vm_compute; reflexivity).
    destruct (H 0 "1,2" Hn) as [ps [Hps Hall]].
    vm_compute in Hps. injection Hps as <-.
    assert (Hh : nth_error (header_names repeated_header_csv ",") 0 = Some "a")
      by (vm_compute; reflexivity).
    destruct (Hall 0 "a" Hh) as [v [Hv Hget]].
    vm_compute in Hv. vm_compute in Hget. congruence.
Qed.

(** Distinct header names do not rescue the positional reading either:
    the header name [__proto__] never becomes a key of the row. *)
Example parseCSV_proto_header :
  header_names proto_header_csv "," = ["__proto__"; "b"] /\
  parseCSV proto_header_csv "," = [VObj [("b", VStr "2")]].
Proof. split; vm_compute; reflexivity. Qed.

(** C2.  [parseCSV] never fails: its rows are, in order, the rows of
    exactly those data lines whose field count equals the header count, so
    a line with any other field count leaves no trace in the result.  In
    particular the text with lines [a,b], [1,2,3] and [4,5] yields the
    single row mapping [a] to [4] and [b] to [5]. *)
Theorem parseCSV_drops_mismatched_lines :
  (forall text d,
     parseCSV text d =
     map (row_of (header_names text d))
         (filter (has_header_count (header_names text d))
                 (map (fields d) (data_lines text)))) /\
  parseCSV ragged_csv "," = [VObj [("a", VStr "4"); ("b", VStr "5")]].
Proof.
  split.
  - apply parseCSV_rows.
  - vm_compute. reflexivity.
Qed.

(** C9, as amended.  All rows returned by [parseCSV] have one and the same
    key sequence.  It has no repetition, its members are the header names
    other than [__proto__], and it is exactly the sequence of header names
    when these are pairwise distinct and none of them is [__proto__] or an
    array index. *)
Theorem parseCSV_rows_share_keys (text d : string) (row : value) :
  In row (parseCSV text d) ->
  exists ks,
    Object_keys row = Ok ks /\
    (forall row', In row' (parseCSV text d) -> Object_keys row' = Ok ks) /\
    NoDup ks /\
    (forall k, In k ks <-> In k (header_names text d) /\ k <> "__proto__") /\
    (plain_names (header_names text d) -> ks = header_names text d).
Proof.
  rewrite parseCSV_rows. set (hs := header_names text d).
  intros Hrow. exists (own_keys hs).
  assert (Hkeys : forall r,
            In r (map (row_of hs)
                    (filter (has_header_count hs) (map (fields d) (data_lines text)))) ->
            Object_keys r = Ok (own_keys hs)).
  { intros r Hr. apply in_map_iff in Hr as [vs [<- _]]. apply row_of_keys. }
  split; [now apply Hkeys|]. split; [exact Hkeys|]. split; [|split].
  - apply NoDup_fold_add_key. constructor.
  - intros k. unfold own_keys. rewrite In_fold_add_key. simpl. intuition.
  - intros (Hd & Hp & Hi). unfold own_keys.
    now rewrite fold_add_key_plain.
Qed.

(** [parseCSV_rows_share_keys] at the second row of the same text. *)
Lemma parseCSV_rows_share_keys_witness :
  In (VObj [("a", VStr "3"); ("b", VStr "4")]) (parseCSV sample_csv ",") /\
  exists ks,
    Object_keys (VObj [("a", VStr "3"); ("b", VStr "4")]) = Ok ks /\
    (forall row', In row' (parseCSV sample_csv ",") -> Object_keys row' = Ok ks) /\
    NoDup ks /\
    (forall k, In k ks <-> In k (header_names sample_csv ",") /\ k <> "__proto__") /\
    (plain_names (header_names sample_csv ",") -> ks = header_names sample_csv ",").
Proof.
  assert (H : In (VObj [("a", VStr "3"); ("b", VStr "4")]) (parseCSV sample_csv ",")).
  { vm_compute. right. left. reflexivity. }
  split; [exact H|].
  exact (parseCSV_rows_share_keys sample_csv "," _ H).
Defined.

(** C9 as stated fails: a header name that is an array index, such as a
    year, is listed before the other keys whatever its place in the header
    line. *)
Lemma parseCSV_key_order_counterexample :
  ~ (forall text d row,
       In row (parseCSV text d) -> Object_keys row = Ok (header_names text d)).
Proof.
  intros H.
  specialize (H year_header_csv "," (VObj [("2020", VStr "1"); ("name", VStr "x")])).
  assert (Hin : In (VObj [("2020", VStr "1"); ("name", VStr "x")])
                   (parseCSV year_header_csv ",")).
  { vm_compute. left. reflexivity. }
  apply H in Hin. vm_compute in Hin. discriminate.
Qed.

End ParseCSVSpec.

Module FormatFacts.
Import JS DataLoader Vocabulary JSFacts.

(** *** Strings free of line feeds *)

Lemma no_lf_app a b : no_lf (a ++ b) = no_lf a && no_lf b.
Proof.
  induction a as [|c a IH]; simpl; [reflexivity|].
  now rewrite IH, andb_assoc.
Qed.

Lemma no_lf_uint u : no_lf (NilEmpty.string_of_uint u) = true.
Proof. induction u; simpl; auto. Qed.

Lemma no_lf_nat n : no_lf (nat_to_string n) = true.
Proof. apply no_lf_uint. Qed.

Lemma no_lf_substring n m s : no_lf s = true -> no_lf (substring n m s) = true.
Proof.
  revert n m. induction s as [|c s IH]; intros n m H.
  - destruct n, m; reflexivity.
  - simpl in H. apply andb_true_iff in H as [Hc Hs].
    destruct n as [|n]; [destruct m as [|m]|]; simpl.
    + reflexivity.
    + rewrite Hc. now apply IH.
    + now apply IH.
Qed.

Lemma no_lf_zeros n : no_lf (repeat_string "0" n) = true.
Proof. induction n as [|n IH]; simpl; auto. Qed.

Lemma no_lf_join parts :
  Forall (fun p => no_lf p = true) parts -> no_lf (join "," parts) = true.
Proof.
  induction 1 as [|p parts Hp Hparts IH]; [reflexivity|].
  destruct parts as [|q parts]; [exact Hp|].
  change (no_lf (p ++ "," ++ join "," (q :: parts)) = true).
  rewrite !no_lf_app, Hp, IH. reflexivity.
Qed.

Ltac no_lf_pieces :=
  repeat rewrite no_lf_app;
  repeat first
    [ rewrite no_lf_uint | rewrite no_lf_zeros
    | rewrite no_lf_substring by apply no_lf_uint ];
  reflexivity.

Lemma no_lf_Number_toString x : no_lf (Number_toString x) = true.
Proof.
  destruct x as [|[]|negative s e]; try reflexivity.
  unfold Number_toString.
  destruct (s =? 0)%N; [reflexivity|].
  cbv zeta.
  repeat match goal with
         | |- context [if ?b then _ else _] => destruct b
         end; no_lf_pieces.
Qed.

Lemma no_lf_json_escape c : no_lf (json_escape c) = true.
Proof.
  destruct c as [b0 b1 b2 b3 b4 b5 b6 b7].
  destruct b0, b1, b2, b3, b4, b5, b6, b7; reflexivity.
Qed.

Lemma no_lf_json_escape_all s : no_lf (json_escape_all s) = true.
Proof.
  induction s as [|c s IH]; simpl; [reflexivity|].
  now rewrite no_lf_app, no_lf_json_escape, IH.
Qed.

Lemma no_lf_QuoteJSONString s : no_lf (QuoteJSONString s) = true.
Proof.
  unfold QuoteJSONString. simpl.
  now rewrite no_lf_app, no_lf_json_escape_all.
Qed.

(** Without a gap, [JSON.stringify] writes no line feed. *)
Lemma no_lf_serialize v :
  forall indent s, SerializeJSONProperty "" indent v = Some s -> no_lf s = true.
Proof.
  induction v as [| |b|n|t|l IH|ps IH] using value_nested_ind; intros indent s; simpl.
  - discriminate.
  - now intros [= <-].
  - destruct b; now intros [= <-].
  - intros [= <-]. destruct (Number_isFinite n); [apply no_lf_Number_toString|reflexivity].
  - intros [= <-]. apply no_lf_QuoteJSONString.
  - set (partial := map _ l).
    assert (Hall : Forall (fun p => no_lf p = true) partial).
    { subst partial. apply Forall_map.
      eapply Forall_impl; [|exact IH]. intros e He.
      destruct (SerializeJSONProperty "" (indent ++ "") e) as [se|] eqn:Hse; simpl.
      - eapply He, Hse.
      - reflexivity. }
    destruct partial as [|p partial]; intros [= <-]; [reflexivity|].
    change (no_lf ("[" ++ join "," (p :: partial) ++ "]") = true).
    rewrite !no_lf_app, no_lf_join by exact Hall. reflexivity.
  - set (partial := flat_map _ ps).
    assert (Hall : Forall (fun p => no_lf p = true) partial).
    { subst partial. apply Forall_flat_map.
      eapply Forall_impl; [|exact IH]. intros [k e] He. cbn [fst snd] in *.
      destruct (SerializeJSONProperty "" (indent ++ "") e) as [se|] eqn:Hse.
      - constructor; [|constructor].
        change (no_lf (QuoteJSONString k ++ ":" ++ se) = true).
        rewrite !no_lf_app, no_lf_QuoteJSONString. simpl. eapply He, Hse.
      - constructor. }
    destruct partial as [|p partial]; intros [= <-]; [reflexivity|].
    change (no_lf ("{" ++ join "," (p :: partial) ++ "}") = true).
    rewrite !no_lf_app, no_lf_join by exact Hall. reflexivity.
Qed.

Lemma no_lf_row_line index row : no_lf (row_line index row) = true.
Proof.
  unfold row_line. rewrite !no_lf_app, no_lf_nat. simpl.
  unfold JSON_stringify.
  destruct (SerializeJSONProperty "" "" row) as [s|] eqn:Hs; simpl.
  - eapply no_lf_serialize, Hs.
  - reflexivity.
Qed.

(** *** Splitting into lines *)

Lemma split_LF_line line rest :
  no_lf line = true -> split LF (line ++ LF ++ rest) = line :: split LF rest.
Proof.
  unfold split, LF. induction line as [|c line IH]; intros H.
  - reflexivity.
  - cbn [append split_scan is_prefix no_lf] in *.
    apply andb_true_iff in H as [Hc Hline].
    rewrite (Ascii.eqb_sym "010" c).
    destruct (Ascii.eqb c "010"); [discriminate|].
    cbn [andb]. now rewrite (IH Hline).
Qed.

Lemma split_LF_unlines ls :
  Forall (fun l => no_lf l = true) ls ->
  split LF (unlines ls) = (ls ++ [""])%list.
Proof.
  induction 1 as [|l ls Hl Hls IH]; cbn [unlines]; [reflexivity|].
  now rewrite split_LF_line, IH.
Qed.

(** *** The row lines *)

Lemma append_empty_r (s : string) : s ++ "" = s.
Proof. induction s as [|c s IH]; simpl; [reflexivity|now rewrite IH]. Qed.

Lemma append_assoc (a b c : string) : (a ++ b) ++ c = a ++ (b ++ c).
Proof. induction a as [|x a IH]; simpl; [reflexivity|now rewrite IH]. Qed.

Lemma forEach_from_row_lines index rows formatted :
  forEach_from index rows append_row_line formatted =
  formatted ++ unlines (row_lines_from index rows).
Proof.
  revert index formatted. induction rows as [|row rows IH]; intros index formatted; simpl.
  - symmetry. apply append_empty_r.
  - rewrite IH. unfold append_row_line, row_line. cbn [unlines].
    rewrite !append_assoc. reflexivity.
Qed.

Lemma row_lines_from_length index rows :
  List.length (row_lines_from index rows) = List.length rows.
Proof.
  revert index. induction rows as [|row rows IH]; intros index; simpl; [reflexivity|].
  now rewrite IH.
Qed.

Lemma row_lines_from_nth index rows i row :
  nth_error rows i = Some row ->
  nth_error (row_lines_from index rows) i = Some (row_line (index + i) row).
Proof.
  revert index i. induction rows as [|r rows IH]; intros index i H.
  - destruct i; discriminate.
  - destruct i as [|i]; simpl in *.
    + injection H as ->. now rewrite Nat.add_0_r.
    + rewrite (IH (S index) i H). now rewrite Nat.add_succ_r.
Qed.

Lemma row_lines_from_no_lf index rows :
  Forall (fun l => no_lf l = true) (row_lines_from index rows).
Proof.
  revert index. induction rows as [|row rows IH]; intros index; simpl; constructor.
  - apply no_lf_row_line.
  - apply IH.
Qed.

End FormatFacts.

Module FormatSpec.
Import JS DataLoader Vocabulary JSFacts FormatFacts.

Lemma nth_error_firstn_lt {A : Type} (l : list A) m i :
  i < m -> nth_error (firstn m l) i = nth_error l i.
Proof.
  revert m i. induction l as [|a l IH]; intros m i Hlt.
  - now rewrite firstn_nil.
  - destruct m as [|m]; [lia|]. destruct i as [|i]; simpl; [reflexivity|].
    apply IH. lia.
Qed.

Lemma slice0_prefix {A : Type} (l : list A) (m : Z) :
  (0 <= m <= Z.of_nat (List.length l))%Z -> slice0 l m = firstn (Z.to_nat m) l.
Proof.
  intros H. unfold slice0.
  destruct (Z.ltb_spec m 0); [lia|].
  now rewrite Z.min_l by lia.
Qed.

Lemma JSON_stringify_row_line index row :
  is_row row ->
  exists json,
    JSON_stringify row = Some json /\
    row_line index row = "Row " ++ nat_to_string (index + 1) ++ ": " ++ json.
Proof.
  intros [ps ->]. unfold row_line, JSON_stringify.
  destruct (SerializeJSONProperty "" "" (VObj ps)) as [json|] eqn:E.
  - exists json. split; reflexivity.
  - exfalso. cbn [SerializeJSONProperty] in E.
    destruct (flat_map _ ps); discriminate.
Qed.

(** C3, as amended.  For a sequence of [N] rows and [1 <= maxRows < N],
    [formatDataForAI] returns a text that opens with the count statement
    giving the total [N] and the shown [maxRows], and that ends, after the
    columns line and the sample header, with exactly [maxRows] lines; line
    [i] (counting from 0) is the 1-based index [i + 1] followed by the JSON
    text of row [i] of the input, so the rows shown are the first
    [maxRows] rows in their original order. *)
Theorem formatDataForAI_shows_prefix (rows : list value) (maxRows : Z) :
  Forall is_row rows ->
  (1 <= maxRows < Z.of_nat (List.length rows))%Z ->
  exists headers lines,
    Object_keys (element rows 0) = Ok headers /\
    formatDataForAI (VArr rows) maxRows =
      Ok ("Data Summary (" ++ nat_to_string (List.length rows) ++ " total rows, showing "
            ++ nat_to_string (Z.to_nat maxRows) ++ "):" ++ LF ++ LF
            ++ "Columns: " ++ join ", " headers ++ LF ++ LF
            ++ "Sample Data:" ++ LF
            ++ unlines lines) /\
    split LF (unlines lines) = (lines ++ [""])%list /\
    List.length lines = Z.to_nat maxRows /\
    forall i row,
      i < Z.to_nat maxRows ->
      nth_error rows i = Some row ->
      exists json,
        JSON_stringify row = Some json /\
        nth_error lines i = Some ("Row " ++ nat_to_string (i + 1) ++ ": " ++ json).
Proof.
  intros Hrows Hm.
  set (m := Z.to_nat maxRows).
  assert (Hmlen : 1 <= m < List.length rows) by (subst m; lia).
  destruct rows as [|row0 rows']; [simpl in Hmlen; lia|].
  assert (Hrow0 : is_row row0) by (inversion Hrows; assumption).
  destruct Hrow0 as [ps0 ->].
  exists (map fst ps0), (row_lines_from 0 (firstn m (VObj ps0 :: rows'))).
  split; [reflexivity|]. split; [|split; [|split]].
  - unfold formatDataForAI.
    replace (List.length (VObj ps0 :: rows') =? 0)%nat with false by reflexivity.
    rewrite slice0_prefix by lia. fold m.
    assert (Hel : element (firstn m (VObj ps0 :: rows')) 0 = VObj ps0)
      by (destruct m; [lia|reflexivity]).
    assert (Hlen : List.length (firstn m (VObj ps0 :: rows')) = m)
      by (rewrite length_firstn; lia).
    rewrite Hel, Hlen. cbn [Object_keys bind].
    change (forEach (firstn m (VObj ps0 :: rows')) ?f ?st)
      with (forEach_from 0 (firstn m (VObj ps0 :: rows')) append_row_line st).
    rewrite forEach_from_row_lines, !append_assoc. reflexivity.
  - apply split_LF_unlines, row_lines_from_no_lf.
  - rewrite row_lines_from_length, length_firstn. lia.
  - intros i row Hi Hrow.
    assert (Hr : is_row row).
    { rewrite Forall_forall in Hrows. eapply Hrows, nth_error_In, Hrow. }
    destruct (JSON_stringify_row_line i row Hr) as [json [Hjson Hline]].
    exists json. split; [exact Hjson|].
    rewrite (row_lines_from_nth 0 _ i row).
    + simpl. now rewrite Hline.
    + rewrite nth_error_firstn_lt by exact Hi. exact Hrow.
Qed.

(** [formatDataForAI_shows_prefix] at three rows and [maxRows = 2]. *)
Lemma formatDataForAI_shows_prefix_witness :
  (Forall is_row sample_rows /\ (1 <= 2 < Z.of_nat (List.length sample_rows))%Z) /\
  exists headers lines,
    Object_keys (element sample_rows 0) = Ok headers /\
    formatDataForAI (VArr sample_rows) 2 =
      Ok ("Data Summary (" ++ nat_to_string (List.length sample_rows) ++ " total rows, showing "
            ++ nat_to_string (Z.to_nat 2) ++ "):" ++ LF ++ LF
            ++ "Columns: " ++ join ", " headers ++ LF ++ LF
            ++ "Sample Data:" ++ LF
            ++ unlines lines) /\
    split LF (unlines lines) = (lines ++ [""])%list /\
    List.length lines = Z.to_nat 2 /\
    forall i row,
      i < Z.to_nat 2 ->
      nth_error sample_rows i = Some row ->
      exists json,
        JSON_stringify row = Some json /\
        nth_error lines i = Some ("Row " ++ nat_to_string (i + 1) ++ ": " ++ json).
Proof.
  assert (H1 : Forall is_row sample_rows).
  { unfold sample_rows. repeat constructor; eexists; reflexivity. }
  assert (H2 : (1 <= 2 < Z.of_nat (List.length sample_rows))%Z).
  { simpl. lia. }
  split; [split; [exact H1|exact H2]|].
  exact (formatDataForAI_shows_prefix sample_rows 2 H1 H2).
Defined.

(** C3 as stated fails: it asks only for [N > maxRows], and with
    [maxRows = 0] no row is left to read the column names from, so the
    call throws instead of returning a text. *)
Lemma formatDataForAI_zero_maxRows_counterexample :
  ~ (forall rows maxRows,
       rows <> [] ->
       Forall is_row rows ->
       (maxRows < Z.of_nat (List.length rows))%Z ->
       exists headers lines,
         Object_keys (element rows 0) = Ok headers /\
         formatDataForAI (VArr rows) maxRows =
           Ok ("Data Summary (" ++ nat_to_string (List.length rows) ++ " total rows, showing "
                 ++ nat_to_string (Z.to_nat maxRows) ++ "):" ++ LF ++ LF
                 ++ "Columns: " ++ join ", " headers ++ LF ++ LF
                 ++ "Sample Data:" ++ LF
                 ++ unlines lines) /\
         List.length lines = Z.to_nat maxRows).
Proof.
  intros H.
  destruct (H single_row 0%Z) as [headers [lines [_ [Hout _]]]].
  - discriminate.
  - repeat constructor. eexists; reflexivity.
  - simpl. lia.
  - assert (E : formatDataForAI (VArr single_row) 0 =
                Throw (TypeError "Cannot convert undefined or null to object"))
      by reflexivity.
    rewrite E in Hout. discriminate.
Qed.

(** A negative [maxRows] counts rows from the end, as [slice] does: with
    three rows and [maxRows = -1] two rows are shown. *)
Example formatDataForAI_negative_maxRows :
  exists headers,
    formatDataForAI (VArr sample_rows) (-1) =
      Ok ("Data Summary (3 total rows, showing 2):" ++ LF ++ LF
            ++ "Columns: " ++ headers ++ LF ++ LF
            ++ "Sample Data:" ++ LF
            ++ unlines (row_lines (firstn 2 sample_rows))).
Proof. exists "a, b". vm_compute. reflexivity. Qed.

(** C7.  On an input that is not an array, and on the empty array,
    [formatDataForAI] returns exactly the text [No data available.] *)
Theorem formatDataForAI_no_data (data : value) (maxRows : Z) :
  Array_isArray data = false \/ data = VArr [] ->
  formatDataForAI data maxRows = Ok "No data available.".
Proof.
  intros [H| ->].
  - destruct data; try reflexivity. discriminate.
  - reflexivity.
Qed.

(** [formatDataForAI_no_data] at the empty array and the default [maxRows]. *)
Lemma formatDataForAI_no_data_witness :
  formatDataForAI (VArr []) 50 = Ok "No data available.".
Proof.
  apply (formatDataForAI_no_data (VArr []) 50). right. reflexivity.
Defined.

Lemma append_inj_l (a x y : string) : a ++ x = a ++ y -> x = y.
Proof.
  induction a as [|c a IH]; simpl; intros H; [exact H|].
  injection H as H. now apply IH.
Qed.

(** C10.  With the empty array as data, [createDataContextPrompt] takes
    the array branch: the prompt it returns embeds [No data available.] as
    the dataset context, and is not the prompt around [[]], the indented
    JSON text of the empty array. *)
Theorem createDataContextPrompt_empty_array (basePrompt : string) (maxRows : Z) :
  createDataContextPrompt (VArr []) basePrompt maxRows =
    Ok (prompt_around basePrompt "No data available.") /\
  JSON_stringify_indented (VArr []) 2 = Some "[]" /\
  createDataContextPrompt (VArr []) basePrompt maxRows <>
    Ok (prompt_around basePrompt "[]").
Proof.
  assert (E : createDataContextPrompt (VArr []) basePrompt maxRows =
              Ok (prompt_around basePrompt "No data available.")) by reflexivity.
  split; [exact E|]. split; [reflexivity|].
  rewrite E. intros [= H]. unfold prompt_around in H.
  apply append_inj_l in H. discriminate.
Qed.

End FormatSpec.

(* ===================================================================== *)
(** * Properties of the remote loader *)
(* ===================================================================== *)

Module LoadSpec.
Import JS DataLoader Vocabulary.

Section Platform.

Variable fetch : string -> result Response.
Variable JSON_parse : string -> result value.

Lemma try_rethrow {A : Type} (body : result A) :
  try_catch body (fun error => Throw error) = body.
Proof. destruct body; reflexivity. Qed.

Lemma parseJSON_is_JSON_parse jsonText :
  parseJSON JSON_parse jsonText = JSON_parse jsonText.
Proof. apply try_rethrow. Qed.

(** C6.  [loadRemoteData] fetches first.  A failure of the request, a
    response that is not ok, and a failure to read the body each make the
    call fail, the first and the last with the very error received.  Once
    the text is fetched, type [csv] gives the rows of [parseCSV] with the
    comma delimiter, type [json] gives whatever [JSON.parse] gives, its
    error included, and any other type fails with the unsupported-type
    error; for such a type the call succeeds in no case. *)
Theorem loadRemoteData_routes (url type : string) :
  (forall e, fetch url = Throw e ->
     loadRemoteData fetch JSON_parse url type = Throw e) /\
  (forall response, fetch url = Ok response -> ok response = false ->
     loadRemoteData fetch JSON_parse url type =
       Throw (Error ("HTTP error! status: " ++ nat_to_string (status response)))) /\
  (forall response e, fetch url = Ok response -> ok response = true ->
     text response = Throw e ->
     loadRemoteData fetch JSON_parse url type = Throw e) /\
  (forall response rawData, fetch url = Ok response -> ok response = true ->
     text response = Ok rawData ->
     (type = "csv" ->
        loadRemoteData fetch JSON_parse url type = Ok (VArr (parseCSV rawData ","))) /\
     (type = "json" ->
        loadRemoteData fetch JSON_parse url type = JSON_parse rawData) /\
     (type <> "csv" -> type <> "json" ->
        loadRemoteData fetch JSON_parse url type =
          Throw (Error ("Unsupported data type: " ++ type)))) /\
  (type <> "csv" -> type <> "json" ->
     forall v, loadRemoteData fetch JSON_parse url type <> Ok v).
Proof.
  unfold loadRemoteData, fetchRemoteData. rewrite try_rethrow.
  split; [|split; [|split; [|split]]].
  - intros e ->. reflexivity.
  - intros response -> Hok. cbn [bind]. now rewrite Hok.
  - intros response e -> Hok Ht. cbn [bind]. now rewrite Hok, Ht.
  - intros response rawData -> Hok Ht. cbn [bind]. rewrite Hok, Ht. cbn [negb bind].
    split; [|split].
    + intros ->. reflexivity.
    + intros ->. cbn [String.eqb Ascii.eqb Bool.eqb]. apply parseJSON_is_JSON_parse.
    + intros Hcsv Hjson.
      destruct (String.eqb_spec type "csv"); [contradiction|].
      destruct (String.eqb_spec type "json"); [contradiction|]. reflexivity.
  - intros Hcsv Hjson v.
    destruct (String.eqb_spec type "csv"); [contradiction|].
    destruct (String.eqb_spec type "json"); [contradiction|].
    destruct (fetch url) as [response|e]; simpl; [|discriminate].
    destruct (ok response); simpl; [|discriminate].
    destruct (text response); simpl; discriminate.
Qed.

End Platform.

(** [loadRemoteData_routes] for a platform whose [fetch] succeeds with a
    CSV text and whose [JSON.parse] rejects it. *)
Lemma loadRemoteData_routes_witness :
  loadRemoteData sample_fetch sample_JSON_parse "https://example.org/data" "csv" =
    Ok (VArr (parseCSV sample_csv ",")) /\
  loadRemoteData sample_fetch sample_JSON_parse "https://example.org/data" "json" =
    Throw (SyntaxError "Unexpected token") /\
  loadRemoteData sample_fetch sample_JSON_parse "https://example.org/data" "xml" =
    Throw (Error "Unsupported data type: xml").
Proof.
  pose proof (loadRemoteData_routes sample_fetch sample_JSON_parse
                "https://example.org/data") as H.
  split; [|split].
  - destruct (H "csv") as (_ & _ & _ & Hok & _).
    apply (Hok _ sample_csv eq_refl eq_refl eq_refl). reflexivity.
  - destruct (H "json") as (_ & _ & _ & Hok & _).
    apply (Hok _ sample_csv eq_refl eq_refl eq_refl). reflexivity.
  - destruct (H "xml") as (_ & _ & _ & Hok & _).
    apply (Hok _ sample_csv eq_refl eq_refl eq_refl); discriminate.
Defined.

End LoadSpec.

(* ===================================================================== *)
(** * Properties of the chart generator *)
(* ===================================================================== *)

Module ChartSpec.
Import JS ChartGenerator Vocabulary.

Lemma prop_readable v name : readable v -> exists x, prop v name = Ok x.
Proof.
  intros [Hu Hn]. destruct v; try contradiction; simpl; eauto.
  destruct (own_get properties name); eauto.
Qed.

Lemma mapM_Forall2 {A B : Type} (f : A -> result B) (R : A -> B -> Prop) (l : list A) :
  Forall (fun a => exists b, f a = Ok b /\ R a b) l ->
  exists bs, mapM f l = Ok bs /\ Forall2 R l bs.
Proof.
  induction 1 as [|a l [b [Hb HR]] _ [bs [Hbs HF]]]; simpl.
  - exists []. split; [reflexivity|constructor].
  - exists (b :: bs). rewrite Hb, Hbs. split; [reflexivity|now constructor].
Qed.

Lemma js_or_color dataset c default :
  prop dataset "color" = Ok c -> js_or c (VStr default) = color_or dataset default.
Proof.
  intros H. unfold color_or, supplied_color, js_or. rewrite H.
  destruct (ToBoolean c); reflexivity.
Qed.

Lemma line_series_preserved dataset :
  readable dataset ->
  exists out,
    line_series dataset = Ok out /\
    series_preserved "borderColor" line_default_border
                     "backgroundColor" line_default_background dataset out.
Proof.
  intros Hr.
  destruct (prop_readable dataset "label" Hr) as [label Hl].
  destruct (prop_readable dataset "data" Hr) as [data Hd].
  destruct (prop_readable dataset "color" Hr) as [color Hc].
  unfold line_series. rewrite Hl, Hd, Hc. cbn [bind].
  eexists. split; [reflexivity|].
  unfold series_preserved. rewrite Hd.
  rewrite !(js_or_color dataset color _ Hc). repeat split.
Qed.

Lemma bar_series_preserved dataset :
  readable dataset ->
  exists out,
    bar_series dataset = Ok out /\
    series_preserved "backgroundColor" bar_default_background
                     "borderColor" bar_default_border dataset out.
Proof.
  intros Hr.
  destruct (prop_readable dataset "label" Hr) as [label Hl].
  destruct (prop_readable dataset "data" Hr) as [data Hd].
  destruct (prop_readable dataset "color" Hr) as [color Hc].
  unfold bar_series. rewrite Hl, Hd, Hc. cbn [bind].
  eexists. split; [reflexivity|].
  unfold series_preserved. rewrite Hd.
  rewrite !(js_or_color dataset color _ Hc). repeat split.
Qed.

Lemma prop_Ok_readable v name x : prop v name = Ok x -> readable v.
Proof. destruct v; simpl; intros H; try discriminate; split; discriminate. Qed.

(** C8.  For arguments whose [datasets] is an array of series,
    [createLineChart] and [createBarChart] return a configuration with as
    many series as the input, in the same order; each output series
    carries the [data] of its input series unchanged, and its two colours
    are the colour the input series supplies, the fixed defaults being
    used only for a series that supplies none. *)
Theorem line_and_bar_preserve_series (args : value) (datasets : list value) :
  prop args "datasets" = Ok (VArr datasets) ->
  Forall readable datasets ->
  (exists config series,
     createLineChart args = Ok config /\
     series_of config = Ok (VArr series) /\
     List.length series = List.length datasets /\
     Forall2 (series_preserved "borderColor" line_default_border
                               "backgroundColor" line_default_background)
             datasets series) /\
  (exists config series,
     createBarChart args = Ok config /\
     series_of config = Ok (VArr series) /\
     List.length series = List.length datasets /\
     Forall2 (series_preserved "backgroundColor" bar_default_background
                               "borderColor" bar_default_border)
             datasets series).
Proof.
  intros Hds Hall.
  pose proof (prop_Ok_readable _ _ _ Hds) as Hr.
  destruct (prop_readable args "title" Hr) as [title Ht].
  destruct (prop_readable args "labels" Hr) as [labels Hl].
  split.
  - destruct (mapM_Forall2 line_series _ datasets
                (Forall_impl _ line_series_preserved Hall)) as [series [Hm HF]].
    unfold createLineChart. rewrite Ht, Hl, Hds. cbn [bind Array_map].
    rewrite Hm. cbn [bind]. do 2 eexists.
    split; [reflexivity|]. split; [reflexivity|].
    split; [symmetry; eapply Forall2_length, HF|exact HF].
  - destruct (mapM_Forall2 bar_series _ datasets
                (Forall_impl _ bar_series_preserved Hall)) as [series [Hm HF]].
    unfold createBarChart. rewrite Ht, Hl, Hds. cbn [bind Array_map].
    rewrite Hm. cbn [bind]. do 2 eexists.
    split; [reflexivity|]. split; [reflexivity|].
    split; [symmetry; eapply Forall2_length, HF|exact HF].
Qed.

(** [line_and_bar_preserve_series] at two series, the second of which
    supplies a colour. *)
Lemma line_and_bar_preserve_series_witness :
  (prop sample_chart_args "datasets" = Ok (VArr sample_series) /\
   Forall readable sample_series) /\
  (exists config series,
     createLineChart sample_chart_args = Ok config /\
     series_of config = Ok (VArr series) /\
     List.length series = 2 /\
     Forall2 (series_preserved "borderColor" line_default_border
                               "backgroundColor" line_default_background)
             sample_series series).
Proof.
  assert (H1 : prop sample_chart_args "datasets" = Ok (VArr sample_series))
    by reflexivity.
  assert (H2 : Forall readable sample_series).
  { unfold sample_series. repeat constructor; discriminate. }
  split; [split; [exact H1|exact H2]|].
  exact (proj1 (line_and_bar_preserve_series sample_chart_args sample_series H1 H2)).
Defined.

(** C5, as amended.  When [colors] is absent, [createPieChart] gives the
    single series the fixed default palette as it is: always its five
    colours, whatever the number of slices in [data]. *)
Theorem createPieChart_default_palette (args : value) :
  prop args "colors" = Ok VUndefined ->
  exists config series,
    createPieChart args = Ok config /\
    series_of config = Ok (VArr [series]) /\
    prop series "data" = prop args "data" /\
    prop series "backgroundColor" = Ok (VArr (map VStr pie_default_colors)) /\
    List.length pie_default_colors = 5.
Proof.
  intros Hc.
  pose proof (prop_Ok_readable _ _ _ Hc) as Hr.
  destruct (prop_readable args "title" Hr) as [title Ht].
  destruct (prop_readable args "labels" Hr) as [labels Hl].
  destruct (prop_readable args "data" Hr) as [data Hd].
  unfold createPieChart. rewrite Ht, Hl, Hd, Hc. cbn [bind].
  do 2 eexists. split; [reflexivity|]. split; [reflexivity|].
  repeat split.
Qed.

(** [createPieChart_default_palette] at two slices and no [colors]. *)
Lemma createPieChart_default_palette_witness :
  prop sample_pie_args "colors" = Ok VUndefined /\
  exists config series,
    createPieChart sample_pie_args = Ok config /\
    series_of config = Ok (VArr [series]) /\
    prop series "data" = prop sample_pie_args "data" /\
    prop series "backgroundColor" = Ok (VArr (map VStr pie_default_colors)) /\
    List.length pie_default_colors = 5.
Proof.
  assert (H : prop sample_pie_args "colors" = Ok VUndefined) by reflexivity.
  split; [exact H|].
  exact (createPieChart_default_palette sample_pie_args H).
Defined.

(** C5 as stated fails: for two slices and no [colors], the series gets
    the five default colours, not two. *)
Lemma createPieChart_palette_counterexample :
  ~ (forall args slices,
       prop args "colors" = Ok VUndefined ->
       prop args "data" = Ok (VArr slices) ->
       exists config series colors,
         createPieChart args = Ok config /\
         series_of config = Ok (VArr [series]) /\
         prop series "backgroundColor" = Ok (VArr colors) /\
         List.length colors = List.length slices).
Proof.
  intros H.
  destruct (H sample_pie_args [VNum (num 1); VNum (num 2)] eq_refl eq_refl)
    as (config & series & colors & Hcfg & Hser & Hbg & Hlen).
  vm_compute in Hcfg. injection Hcfg as <-.
  vm_compute in Hser. injection Hser as <-.
  vm_compute in Hbg. injection Hbg as <-.
  discriminate.
Qed.

(** C4, as amended.  For a function name that is not one of the four
    registered names, and any arguments, [handleChartFunction] does not
    throw: it returns the bare string saying that the function is unknown,
    which is not an object with [html] and [text]. *)
Theorem handleChartFunction_unknown_name (functionName : string) (args : value) :
  ~ In functionName chartFunctionNames ->
  handleChartFunction functionName args =
    Ok (VStr ("Error: Unknown function " ++ functionName)) /\
  ~ is_render_payload (VStr ("Error: Unknown function " ++ functionName)).
Proof.
  intros Hn. split.
  - unfold handleChartFunction.
    repeat match goal with
           | |- context [String.eqb functionName ?name] =>
               destruct (String.eqb_spec functionName name) as [->|_];
               [exfalso; apply Hn; simpl; tauto|]
           end.
    reflexivity.
  - intros (ps & html & text & Hv & _). discriminate.
Qed.

(** [handleChartFunction_unknown_name] at the name [unknown_fn]. *)
Lemma handleChartFunction_unknown_name_witness :
  ~ In "unknown_fn" chartFunctionNames /\
  handleChartFunction "unknown_fn" (VObj []) =
    Ok (VStr "Error: Unknown function unknown_fn").
Proof.
  assert (H : ~ In "unknown_fn" chartFunctionNames).
  { simpl. intros [H|[H|[H|[H|[]]]]]; discriminate. }
  split; [exact H|].
  exact (proj1 (handleChartFunction_unknown_name "unknown_fn" (VObj []) H)).
Defined.

(** C4 as stated fails: the result for an unknown name is a string, not a
    payload with [html] and [text]. *)
Lemma handleChartFunction_payload_counterexample :
  ~ (forall functionName args,
       ~ In functionName chartFunctionNames ->
       exists payload,
         handleChartFunction functionName args = Ok payload /\
         is_render_payload payload).
Proof.
  intros H.
  destruct (H "unknown_fn" (VObj [])) as (payload & Hp & ps & html & text & Hv & _).
  - simpl. intros [E|[E|[E|[E|[]]]]]; discriminate.
  - vm_compute in Hp. injection Hp as <-. discriminate.
Qed.

End ChartSpec.

(* ===================================================================== *)
(** * Further properties of the CSV parser *)
(* ===================================================================== *)

Module ParseCSVMore.
Import JS DataLoader Vocabulary Terms JSFacts ParseFacts FormatFacts.

(** *** Trimming *)

Lemma trim_cons_white_space c s :
  is_white_space c = true -> trim (String c s) = trim s.
Proof. intros H. unfold trim. simpl. now rewrite H. Qed.

Lemma trimEnd_snoc_white_space c s :
  is_white_space c = true -> trimEnd (s ++ String c "") = trimEnd s.
Proof.
  intros H. induction s as [|a s IH]; simpl.
  - now rewrite H.
  - now rewrite IH.
Qed.

Lemma trim_snoc_white_space c s :
  is_white_space c = true -> trim (s ++ String c "") = trim s.
Proof.
  intros H. unfold trim. induction s as [|a s IH].
  - simpl. now rewrite H.
  - cbn [append trimStart]. destruct (is_white_space a); [exact IH|].
    apply (trimEnd_snoc_white_space c (String a s) H).
Qed.

Lemma trim_white_space_prefix w s :
  all_white_space w = true -> trim (w ++ s) = trim s.
Proof.
  induction w as [|c w IH]; simpl; intros H; [reflexivity|].
  apply andb_true_iff in H as [Hc Hw].
  change (trim (String c (w ++ s)) = trim s).
  rewrite trim_cons_white_space by exact Hc. now apply IH.
Qed.

Lemma trim_white_space_suffix w s :
  all_white_space w = true -> trim (s ++ w) = trim s.
Proof.
  revert s. induction w as [|c w IH]; simpl; intros s H.
  - now rewrite append_empty_r.
  - apply andb_true_iff in H as [Hc Hw].
    change (String c w) with (String c "" ++ w).
    rewrite <- append_assoc, IH by exact Hw.
    now apply trim_snoc_white_space.
Qed.

Lemma parseCSV_same_trim t1 t2 d : trim t1 = trim t2 -> parseCSV t1 d = parseCSV t2 d.
Proof. intros H. unfold parseCSV. now rewrite H. Qed.

(** *** Splitting *)

Lemma split_LF_whole s : no_lf s = true -> split LF s = [s].
Proof.
  unfold split, LF. induction s as [|c s IH]; intros H; [reflexivity|].
  cbn [split_scan is_prefix no_lf] in *.
  apply andb_true_iff in H as [Hc Hs].
  rewrite (Ascii.eqb_sym "010" c).
  destruct (Ascii.eqb c "010"); [discriminate|].
  cbn [andb]. now rewrite (IH Hs).
Qed.

Lemma split_char_length c s :
  List.length (split (String c "") s) = S (count_char c s).
Proof.
  unfold split. induction s as [|a s IH]; [reflexivity|].
  cbn [split_scan is_prefix count_char String.length Nat.sub].
  destruct (Ascii.eqb c a); cbn [andb].
  - simpl. now rewrite IH.
  - destruct (split_scan (String c "") 0 s) as [|piece rest]; simpl in *; lia.
Qed.

(** *** String values *)

Lemma Forall_update_own (P : string * value -> Prop) ps k v :
  (forall k', P (k', v)) -> Forall P ps -> Forall P (update_own ps k v).
Proof.
  intros Hv. induction 1 as [|[k' v'] ps Hp Hps IH]; simpl; [constructor|].
  destruct (k' =? k); constructor; auto.
Qed.

Lemma Forall_insert_index (P : string * value -> Prop) i ps k v :
  P (k, v) -> Forall P ps -> Forall P (insert_index i k v ps).
Proof.
  intros Hv. induction 1 as [|[k' v'] ps Hp Hps IH]; simpl.
  - repeat constructor. exact Hv.
  - destruct (array_index k') as [j|]; [destruct (j <? i)%N|];
      repeat constructor; auto.
Qed.

Lemma string_valued_set ps k s :
  Forall string_valued ps -> Forall string_valued (obj_set ps k (VStr s)).
Proof.
  intros H. unfold obj_set, define_own.
  destruct (k =? "__proto__"); [exact H|].
  destruct (has_own ps k).
  - apply Forall_update_own; [|exact H]. intros k'. now exists s.
  - destruct (array_index k).
    + apply Forall_insert_index; [now exists s|exact H].
    + apply Forall_app. split; [exact H|]. repeat constructor. now exists s.
Qed.

Lemma string_valued_forEach_from i hs vs st :
  i + List.length hs <= List.length vs ->
  Forall string_valued st ->
  Forall string_valued (forEach_from i hs (assign_cells vs) st).
Proof.
  revert i st. induction hs as [|h hs IH]; intros i st Hlen Hst; simpl; [exact Hst|].
  simpl in Hlen. apply IH; [lia|].
  unfold assign_cells, cell.
  destruct (nth_error vs i) as [s|] eqn:E.
  - now apply string_valued_set.
  - apply nth_error_None in E. lia.
Qed.

Lemma own_keys_length hs : List.length (own_keys hs) <= List.length hs.
Proof.
  apply NoDup_incl_length.
  - apply NoDup_fold_add_key. constructor.
  - intros k Hk. unfold own_keys in Hk. apply In_fold_add_key in Hk.
    destruct Hk as [[]|[Hk _]]. exact Hk.
Qed.

Lemma filter_length_bound {A : Type} (f : A -> bool) (l : list A) :
  List.length (filter f l) <= List.length l.
Proof.
  induction l as [|a l IH]; simpl; [lia|]. destruct (f a); simpl; lia.
Qed.

(** A text without a line feed once trimmed (a lone header line, a blank
    or an empty text) gives no row. *)
Theorem parseCSV_without_data_lines (text d : string) :
  no_lf (trim text) = true -> parseCSV text d = [].
Proof.
  intros H. rewrite parseCSV_rows. unfold data_lines, csv_lines.
  now rewrite (split_LF_whole _ H).
Qed.

(** [parseCSV_without_data_lines] at a lone header line. *)
Lemma parseCSV_without_data_lines_witness :
  no_lf (trim header_only_csv) = true /\ parseCSV header_only_csv "," = [].
Proof.
  assert (H : no_lf (trim header_only_csv) = true) by reflexivity.
  split; [exact H|].
  exact (parseCSV_without_data_lines header_only_csv "," H).
Defined.

(** White space around the text, blank lines before the header and after
    the last line included, changes nothing in the result. *)
Theorem parseCSV_ignores_surrounding_white_space (before text after d : string) :
  all_white_space before = true ->
  all_white_space after = true ->
  parseCSV (before ++ text ++ after) d = parseCSV text d.
Proof.
  intros Hb Ha. apply parseCSV_same_trim.
  rewrite trim_white_space_prefix by exact Hb.
  now apply trim_white_space_suffix.
Qed.

(** [parseCSV_ignores_surrounding_white_space] at a text between a line
    feed with two spaces and two line feeds. *)
Lemma parseCSV_ignores_surrounding_white_space_witness :
  (all_white_space (LF ++ "  ") = true /\ all_white_space (LF ++ LF) = true) /\
  parseCSV ((LF ++ "  ") ++ sample_csv ++ (LF ++ LF)) "," = parseCSV sample_csv ",".
Proof.
  assert (H1 : all_white_space (LF ++ "  ") = true) by reflexivity.
  assert (H2 : all_white_space (LF ++ LF) = true) by reflexivity.
  split; [split; [exact H1|exact H2]|].
  exact (parseCSV_ignores_surrounding_white_space _ sample_csv _ "," H1 H2).
Defined.

(** [parseCSV] returns at most one row per data line, and every row is an
    object that has at most as many keys as there are header fields and
    whose values are all strings: no cell is converted or left
    undefined. *)
Theorem parseCSV_rows_are_string_records (text d : string) :
  List.length (parseCSV text d) <= List.length (data_lines text) /\
  forall row, In row (parseCSV text d) ->
    exists ps,
      row = VObj ps /\
      List.length ps <= List.length (header_names text d) /\
      Forall string_valued ps.
Proof.
  rewrite parseCSV_rows. set (hs := header_names text d). split.
  - rewrite length_map.
    etransitivity; [apply filter_length_bound|]. now rewrite length_map.
  - intros row Hrow.
    apply in_map_iff in Hrow as [vs [<- Hvs]].
    apply filter_In in Hvs as [_ Hcount].
    unfold has_header_count in Hcount. apply Nat.eqb_eq in Hcount.
    exists (forEach hs (assign_cells vs) []). split; [reflexivity|]. split.
    + pose proof (row_of_keys hs vs) as Hk. unfold row_of in Hk.
      cbn [Object_keys] in Hk. injection Hk as Hk.
      rewrite <- (length_map fst).
      change (forEach hs (assign_cells vs) []) with
        (forEach hs (fun row header index => obj_set row header (cell vs index)) []).
      rewrite Hk. apply own_keys_length.
    + apply string_valued_forEach_from; [simpl; lia|constructor].
Qed.

(** With a one-character delimiter, a line has one field more than it has
    occurrences of the delimiter, quoted or not; so a data line is kept
    exactly when the delimiter occurs in it as often as in the header
    line. *)
Theorem parseCSV_counts_delimiters (text : string) (c : ascii) (line : string) :
  List.length (fields (String c "") line) = S (count_char c line) /\
  has_header_count (header_names text (String c "")) (fields (String c "") line) =
    (count_char c line =? count_char c (hd "" (csv_lines text)))%nat.
Proof.
  assert (Hlen : forall l, List.length (fields (String c "") l) = S (count_char c l)).
  { intros l. unfold fields. rewrite length_map. apply split_char_length. }
  split; [apply Hlen|].
  unfold has_header_count, header_names. fold (fields (String c "") (hd "" (csv_lines text))).
  now rewrite !Hlen.
Qed.

End ParseCSVMore.

(* ===================================================================== *)
(** * Further properties of the formatter and the prompt *)
(* ===================================================================== *)

Module FormatMore.
Import JS DataLoader Vocabulary Terms JSFacts ParseFacts FormatFacts.

Lemma parseCSV_Forall_is_row text d : Forall is_row (parseCSV text d).
Proof.
  rewrite parseCSV_rows. apply Forall_forall. intros row Hrow.
  apply in_map_iff in Hrow as [vs [<- _]]. unfold row_of, is_row. eauto.
Qed.

(** The text returned when the slice taken by [formatDataForAI] starts
    with a value that has keys. *)
Lemma formatDataForAI_lists_slice rows maxRows first rest headers :
  rows <> [] ->
  slice0 rows maxRows = first :: rest ->
  Object_keys first = Ok headers ->
  lists_rows (formatDataForAI (VArr rows) maxRows) (List.length rows) (first :: rest).
Proof.
  intros Hne Hslice Hkeys.
  exists headers, (row_lines_from 0 (first :: rest)).
  split; [exact Hkeys|]. split; [|split; [|split]].
  - unfold formatDataForAI.
    destruct rows as [|r rows']; [contradiction|].
    replace (List.length (r :: rows') =? 0)%nat with false by reflexivity.
    rewrite Hslice. cbn [element nth]. rewrite Hkeys. cbn [bind].
    change (forEach (first :: rest) ?f ?st)
      with (forEach_from 0 (first :: rest) append_row_line st).
    rewrite forEach_from_row_lines, !append_assoc. reflexivity.
  - apply split_LF_unlines, row_lines_from_no_lf.
  - apply row_lines_from_length.
  - intros i row Hrow.
    rewrite (row_lines_from_nth 0 _ i row Hrow). reflexivity.
Qed.

Lemma In_firstn {A : Type} (n : nat) (l : list A) (x : A) :
  In x (firstn n l) -> In x l.
Proof.
  revert n. induction l as [|a l IH]; intros n H.
  - now rewrite firstn_nil in H.
  - destruct n as [|n]; [destruct H|]. simpl in H.
    destruct H as [->|H]; [now left|right; eapply IH, H].
Qed.

Lemma slice0_head_In {A : Type} (l : list A) (m : Z) first rest :
  slice0 l m = first :: rest -> In first l.
Proof.
  unfold slice0. intros H. eapply In_firstn. rewrite H. now left.
Qed.

Lemma is_row_keys row : is_row row -> exists headers, Object_keys row = Ok headers.
Proof. intros [ps ->]. simpl. eauto. Qed.

Lemma slice0_all {A : Type} (l : list A) (m : Z) :
  (Z.of_nat (List.length l) <= m)%Z -> slice0 l m = l.
Proof.
  intros H. unfold slice0.
  destruct (Z.ltb_spec m 0); [lia|].
  rewrite Z.min_r by lia. rewrite Nat2Z.id. apply firstn_all.
Qed.

Lemma slice0_negative {A : Type} (l : list A) (m : Z) :
  (m < 0)%Z -> slice0 l m = firstn (List.length l - Z.to_nat (- m)) l.
Proof.
  intros H. unfold slice0.
  destruct (Z.ltb_spec m 0); [|lia]. f_equal. lia.
Qed.

Lemma slice0_empty_iff {A : Type} (l : list A) (m : Z) :
  l <> [] ->
  slice0 l m = [] <-> (m = 0 \/ m <= - Z.of_nat (List.length l))%Z.
Proof.
  intros Hne. unfold slice0.
  assert (Hlen : 0 < List.length l) by (destruct l; [contradiction|simpl; lia]).
  set (final := if (m <? 0)%Z then _ else _).
  assert (Hfirst : firstn (Z.to_nat final) l = [] <-> Z.to_nat final = 0).
  { destruct l as [|a l]; [contradiction|].
    destruct (Z.to_nat final); simpl; split; congruence. }
  rewrite Hfirst. subst final.
  destruct (Z.ltb_spec m 0); lia.
Qed.

(** With [maxRows] at least the number of rows, every row of a non-empty
    data set is listed, and the count statement shows the total twice. *)
Theorem formatDataForAI_lists_all_rows (rows : list value) (maxRows : Z) :
  rows <> [] ->
  Forall is_row rows ->
  (Z.of_nat (List.length rows) <= maxRows)%Z ->
  lists_rows (formatDataForAI (VArr rows) maxRows) (List.length rows) rows.
Proof.
  intros Hne Hrows Hmax.
  destruct rows as [|first rest]; [contradiction|].
  destruct (is_row_keys first) as [headers Hk]; [now inversion Hrows|].
  apply (formatDataForAI_lists_slice _ _ first rest headers); auto.
  now apply slice0_all.
Qed.

(** [formatDataForAI_lists_all_rows] at three rows and the default
    [maxRows]. *)
Lemma formatDataForAI_lists_all_rows_witness :
  (sample_rows <> [] /\ Forall is_row sample_rows /\
   (Z.of_nat (List.length sample_rows) <= 50)%Z) /\
  lists_rows (formatDataForAI (VArr sample_rows) 50) 3 sample_rows.
Proof.
  assert (H1 : sample_rows <> []) by discriminate.
  assert (H2 : Forall is_row sample_rows).
  { unfold sample_rows. repeat constructor; eexists; reflexivity. }
  assert (H3 : (Z.of_nat (List.length sample_rows) <= 50)%Z) by (simpl; lia).
  split; [repeat split; assumption|].
  exact (formatDataForAI_lists_all_rows sample_rows 50 H1 H2 H3).
Defined.

(** A negative [maxRows] above [-N] does not fail: the last [-maxRows]
    rows are left out and the others are listed. *)
Theorem formatDataForAI_negative_maxRows_drops_tail (rows : list value) (maxRows : Z) :
  Forall is_row rows ->
  (- Z.of_nat (List.length rows) < maxRows < 0)%Z ->
  lists_rows (formatDataForAI (VArr rows) maxRows) (List.length rows)
             (firstn (List.length rows - Z.to_nat (- maxRows)) rows).
Proof.
  intros Hrows Hm.
  assert (Hne : rows <> []) by (destruct rows; [simpl in Hm; lia|discriminate]).
  rewrite <- (slice0_negative rows maxRows (proj2 Hm)).
  destruct (slice0 rows maxRows) as [|first rest] eqn:Hs.
  - exfalso. apply slice0_empty_iff in Hs; [lia|exact Hne].
  - assert (Hin : In first rows).
    { eapply slice0_head_In, Hs. }
    rewrite Forall_forall in Hrows.
    destruct (is_row_keys first (Hrows _ Hin)) as [headers Hk].
    now apply (formatDataForAI_lists_slice _ _ first rest headers).
Qed.

(** [formatDataForAI_negative_maxRows_drops_tail] at three rows and
    [maxRows = -1]. *)
Lemma formatDataForAI_negative_maxRows_drops_tail_witness :
  (Forall is_row sample_rows /\ (- Z.of_nat (List.length sample_rows) < -1 < 0)%Z) /\
  lists_rows (formatDataForAI (VArr sample_rows) (-1)) 3 (firstn 2 sample_rows).
Proof.
  assert (H1 : Forall is_row sample_rows).
  { unfold sample_rows. repeat constructor; eexists; reflexivity. }
  assert (H2 : (- Z.of_nat (List.length sample_rows) < -1 < 0)%Z) by (simpl; lia).
  split; [split; assumption|].
  exact (formatDataForAI_negative_maxRows_drops_tail sample_rows (-1) H1 H2).
Defined.

(** On a non-empty sequence of rows, [formatDataForAI] throws exactly when
    [maxRows] is zero or at most [-N]: these are the cases in which no row
    is left to read the columns from. *)
Theorem formatDataForAI_throws_iff (rows : list value) (maxRows : Z) :
  rows <> [] ->
  Forall is_row rows ->
  (exists e, formatDataForAI (VArr rows) maxRows = Throw e) <->
  (maxRows = 0 \/ maxRows <= - Z.of_nat (List.length rows))%Z.
Proof.
  intros Hne Hrows.
  rewrite <- (slice0_empty_iff rows maxRows Hne).
  destruct (slice0 rows maxRows) as [|first rest] eqn:Hs.
  - split; [reflexivity|]. intros _.
    unfold formatDataForAI. destruct rows as [|r rows']; [contradiction|].
    replace (List.length (r :: rows') =? 0)%nat with false by reflexivity.
    rewrite Hs. simpl. eauto.
  - split; [|discriminate]. intros [e He]. exfalso.
    assert (Hin : In first rows).
    { eapply slice0_head_In, Hs. }
    rewrite Forall_forall in Hrows.
    destruct (is_row_keys first (Hrows _ Hin)) as [headers Hk].
    destruct (formatDataForAI_lists_slice rows maxRows first rest headers Hne Hs Hk)
      as (h & ls & _ & Hout & _).
    congruence.
Qed.

(** [formatDataForAI_throws_iff] at one row. *)
Lemma formatDataForAI_throws_iff_witness :
  (single_row <> [] /\ Forall is_row single_row) /\
  ((exists e, formatDataForAI (VArr single_row) (-1) = Throw e) <->
   (-1 = 0 \/ -1 <= - Z.of_nat (List.length single_row))%Z).
Proof.
  assert (H1 : single_row <> []) by discriminate.
  assert (H2 : Forall is_row single_row).
  { unfold single_row. repeat constructor. eexists; reflexivity. }
  split; [split; assumption|].
  exact (formatDataForAI_throws_iff single_row (-1) H1 H2).
Defined.

(** For data that is not an array, [createDataContextPrompt] never throws
    and [maxRows] plays no part: the whole value is embedded as indented
    JSON, whatever its size. *)
Theorem createDataContextPrompt_structured (data : value) (basePrompt : string) (maxRows : Z) :
  Array_isArray data = false ->
  createDataContextPrompt data basePrompt maxRows =
    Ok (prompt_around basePrompt (interpolate (JSON_stringify_indented data 2))).
Proof.
  intros H. unfold createDataContextPrompt. rewrite H. reflexivity.
Qed.

(** [createDataContextPrompt_structured] at an object holding an array,
    with [maxRows = 0]. *)
Lemma createDataContextPrompt_structured_witness :
  createDataContextPrompt (VObj [("rows", VArr sample_rows)]) "" 0 =
    Ok (prompt_around ""
          (interpolate (JSON_stringify_indented (VObj [("rows", VArr sample_rows)]) 2))).
Proof.
  apply (createDataContextPrompt_structured (VObj [("rows", VArr sample_rows)]) "" 0).
  reflexivity.
Defined.

Lemma createDataContextPrompt_rows_ok rows basePrompt maxRows :
  Forall is_row rows ->
  (1 <= maxRows)%Z ->
  exists dataContext,
    createDataContextPrompt (VArr rows) basePrompt maxRows =
      Ok (prompt_around basePrompt dataContext).
Proof.
  intros Hrows Hm. unfold createDataContextPrompt. cbn [Array_isArray].
  destruct rows as [|first rest].
  - exists "No data available.". reflexivity.
  - assert (Hne : first :: rest <> []) by discriminate.
    assert (Hnot : ~ (maxRows = 0 \/ maxRows <= - Z.of_nat (List.length (first :: rest)))%Z)
      by lia.
    rewrite <- (slice0_empty_iff _ maxRows Hne) in Hnot.
    destruct (slice0 (first :: rest) maxRows) as [|f r] eqn:Hs; [contradiction|].
    assert (Hin : In f (first :: rest)).
    { eapply slice0_head_In, Hs. }
    rewrite Forall_forall in Hrows.
    destruct (is_row_keys f (Hrows _ Hin)) as [headers Hk].
    destruct (formatDataForAI_lists_slice _ maxRows f r headers Hne Hs Hk)
      as (h & ls & _ & Hout & _).
    rewrite Hout. cbn [bind]. eexists. reflexivity.
Qed.

(** Whatever the text and the delimiter, the rows of [parseCSV] can be
    turned into a prompt with any [maxRows] of at least one: the call does
    not throw, and the prompt is the base prompt and the fixed sentences
    around a context. *)
Theorem createDataContextPrompt_of_parseCSV (text d basePrompt : string) (maxRows : Z) :
  (1 <= maxRows)%Z ->
  exists dataContext,
    createDataContextPrompt (VArr (parseCSV text d)) basePrompt maxRows =
      Ok (prompt_around basePrompt dataContext).
Proof.
  intros Hm. apply createDataContextPrompt_rows_ok; [|exact Hm].
  apply parseCSV_Forall_is_row.
Qed.

(** [createDataContextPrompt_of_parseCSV] at a text of two data lines and
    the default [maxRows]. *)
Lemma createDataContextPrompt_of_parseCSV_witness :
  exists dataContext,
    createDataContextPrompt (VArr (parseCSV sample_csv ",")) "" 50 =
      Ok (prompt_around "" dataContext).
Proof.
  apply (createDataContextPrompt_of_parseCSV sample_csv "," "" 50). lia.
Defined.

End FormatMore.

(* ===================================================================== *)
(** * Further properties of the remote loader *)
(* ===================================================================== *)

Module LoadMore.
Import JS DataLoader Vocabulary Terms.

Section Platform.

Variable fetch : string -> result Response.
Variable JSON_parse : string -> result value.

(** [fetchRemoteData] returns a text exactly when the request succeeds
    with an ok response whose body can be read, and the text is that
    body. *)
Theorem fetchRemoteData_succeeds_iff (url rawData : string) :
  fetchRemoteData fetch url = Ok rawData <->
  exists response,
    fetch url = Ok response /\ ok response = true /\ text response = Ok rawData.
Proof.
  unfold fetchRemoteData, try_catch, bind.
  destruct (fetch url) as [response|e].
  - destruct (ok response) eqn:Hok; simpl.
    + destruct (text response) as [t|e] eqn:Ht.
      * split.
        -- intros [= <-]. exists response. auto.
        -- intros (r & [= <-] & _ & Hr). congruence.
      * split; [discriminate|]. intros (r & [= <-] & _ & Hr). congruence.
    + split; [discriminate|]. intros (r & [= <-] & Hr & _). congruence.
  - split; [discriminate|]. intros (r & Hr & _). discriminate.
Qed.

End Platform.

End LoadMore.

(* ===================================================================== *)
(** * Further properties of the chart generator *)
(* ===================================================================== *)

Module ChartMore.
Import JS ChartGenerator Vocabulary Terms ChartSpec.

Lemma mapM_Ok_Forall {A B : Type} (f : A -> result B) (l : list A) (bs : list B) :
  mapM f l = Ok bs -> Forall (fun a => exists b, f a = Ok b) l.
Proof.
  revert bs. induction l as [|a l IH]; intros bs H; [constructor|].
  simpl in H. destruct (f a) as [b|e] eqn:Hb; [|discriminate]. simpl in H.
  destruct (mapM f l) as [bs'|e] eqn:Hbs; [|discriminate].
  constructor; [eauto|eapply IH; reflexivity].
Qed.

Lemma line_series_Ok_readable dataset out : line_series dataset = Ok out -> readable dataset.
Proof.
  unfold line_series. destruct (prop dataset "label") as [l|e] eqn:Hl; [|discriminate].
  intros _. eapply prop_Ok_readable, Hl.
Qed.

Lemma bar_series_Ok_readable dataset out : bar_series dataset = Ok out -> readable dataset.
Proof.
  unfold bar_series. destruct (prop dataset "label") as [l|e] eqn:Hl; [|discriminate].
  intros _. eapply prop_Ok_readable, Hl.
Qed.

Lemma scatter_series_Ok_readable dataset out :
  scatter_series dataset = Ok out -> readable dataset.
Proof.
  unfold scatter_series. destruct (prop dataset "label") as [l|e] eqn:Hl; [|discriminate].
  intros _. eapply prop_Ok_readable, Hl.
Qed.

Lemma scatter_series_kept dataset :
  readable dataset ->
  exists out, scatter_series dataset = Ok out /\ scatter_series_preserved dataset out.
Proof.
  intros Hr.
  destruct (prop_readable dataset "label" Hr) as [label Hl].
  destruct (prop_readable dataset "data" Hr) as [data Hd].
  destruct (prop_readable dataset "color" Hr) as [color Hc].
  unfold scatter_series. rewrite Hl, Hd, Hc. cbn [bind].
  eexists. split; [reflexivity|].
  unfold scatter_series_preserved. rewrite Hl, Hd.
  rewrite (js_or_color dataset color _ Hc). repeat split.
Qed.

(** The series part of a builder that maps [series] over [datasets]. *)
Lemma Array_map_succeeds_iff (f : value -> result value) (datasets : value) :
  (forall d out, f d = Ok out -> readable d) ->
  (forall d, readable d -> exists out, f d = Ok out) ->
  (exists series, Array_map datasets f = Ok series) <->
  (exists l, datasets = VArr l /\ Forall readable l).
Proof.
  intros Hback Hforth. split.
  - intros [series H]. destruct datasets; try discriminate.
    exists elements. split; [reflexivity|].
    simpl in H. destruct (mapM f elements) as [bs|e] eqn:Hm; [|discriminate].
    apply mapM_Ok_Forall in Hm.
    eapply Forall_impl; [|exact Hm]. intros d [out Hout]. eapply Hback, Hout.
  - intros (l & -> & Hl).
    destruct (mapM_Forall2 f (fun _ _ => True) l) as [bs [Hbs _]].
    { eapply Forall_impl; [|exact Hl]. intros d Hd.
      destruct (Hforth d Hd) as [out Hout]. eauto. }
    simpl. rewrite Hbs. simpl. eauto.
Qed.

Lemma line_series_total d : readable d -> exists out, line_series d = Ok out.
Proof. intros H. destruct (line_series_preserved d H) as [out [Ho _]]. eauto. Qed.

Lemma bar_series_total d : readable d -> exists out, bar_series d = Ok out.
Proof. intros H. destruct (bar_series_preserved d H) as [out [Ho _]]. eauto. Qed.

Lemma scatter_series_total d : readable d -> exists out, scatter_series d = Ok out.
Proof. intros H. destruct (scatter_series_kept d H) as [out [Ho _]]. eauto. Qed.

Lemma prop_Throw_any v name name' e :
  prop v name = Throw e -> exists e', prop v name' = Throw e'.
Proof.
  destruct v; simpl; try discriminate; eauto.
  destruct (own_get properties name); discriminate.
Qed.

(** The three builders that map over [datasets] succeed exactly on
    arguments whose [datasets] is an array of values other than
    [undefined] and [null]; in every other case they throw.
    [createPieChart] checks nothing: it succeeds on every argument other
    than [undefined] and [null]. *)
Theorem chart_builders_succeed_iff (args : value) :
  ((exists config, createLineChart args = Ok config) <-> has_series args) /\
  ((exists config, createBarChart args = Ok config) <-> has_series args) /\
  ((exists config, createScatterPlot args = Ok config) <-> has_series args) /\
  ((exists config, createPieChart args = Ok config) <-> readable args).
Proof.
  assert (Hgen : forall f,
            (forall d out, f d = Ok out -> readable d) ->
            (forall d, readable d -> exists out, f d = Ok out) ->
            (exists series, bind (prop args "datasets") (fun datasets => Array_map datasets f)
                            = Ok series) <-> has_series args).
  { intros f Hb Hf. unfold has_series.
    destruct (prop args "datasets") as [datasets|e] eqn:Hd; cbn [bind].
    - rewrite (Array_map_succeeds_iff f datasets Hb Hf). split.
      + intros (l & -> & Hl). eauto.
      + intros (l & [= ->] & Hl). eauto.
    - split; [intros [x Hx]; discriminate|intros (l & Hl & _); discriminate]. }
  split; [|split; [|split]].
  - rewrite <- (Hgen line_series line_series_Ok_readable line_series_total).
    unfold createLineChart.
    destruct (prop args "title") as [title|e] eqn:Ht.
    + destruct (prop_readable args "labels" (prop_Ok_readable _ _ _ Ht)) as [labels Hl].
      rewrite Hl. cbn [bind].
      destruct (prop args "datasets") as [datasets|e]; cbn [bind];
        [|split; intros [x Hx]; discriminate].
      destruct (Array_map datasets line_series); cbn [bind];
        split; intros [x Hx]; try discriminate; eauto.
    + cbn [bind]. split; [intros [x Hx]; discriminate|].
      destruct (prop_Throw_any _ _ "datasets" _ Ht) as [e' He'].
      rewrite He'. intros [x Hx]. discriminate.
  - rewrite <- (Hgen bar_series bar_series_Ok_readable bar_series_total).
    unfold createBarChart.
    destruct (prop args "title") as [title|e] eqn:Ht.
    + destruct (prop_readable args "labels" (prop_Ok_readable _ _ _ Ht)) as [labels Hl].
      rewrite Hl. cbn [bind].
      destruct (prop args "datasets") as [datasets|e]; cbn [bind];
        [|split; intros [x Hx]; discriminate].
      destruct (Array_map datasets bar_series); cbn [bind];
        split; intros [x Hx]; try discriminate; eauto.
    + cbn [bind]. split; [intros [x Hx]; discriminate|].
      destruct (prop_Throw_any _ _ "datasets" _ Ht) as [e' He'].
      rewrite He'. intros [x Hx]. discriminate.
  - rewrite <- (Hgen scatter_series scatter_series_Ok_readable scatter_series_total).
    unfold createScatterPlot.
    destruct (prop args "title") as [title|e] eqn:Ht.
    + cbn [bind].
      destruct (prop args "datasets") as [datasets|e]; cbn [bind];
        [|split; intros [x Hx]; discriminate].
      destruct (Array_map datasets scatter_series); cbn [bind];
        split; intros [x Hx]; try discriminate; eauto.
    + cbn [bind]. split; [intros [x Hx]; discriminate|].
      destruct (prop_Throw_any _ _ "datasets" _ Ht) as [e' He'].
      rewrite He'. intros [x Hx]. discriminate.
  - unfold createPieChart. split.
    + intros [config H].
      destruct (prop args "title") as [title|e] eqn:Ht; [|discriminate].
      eapply prop_Ok_readable, Ht.
    + intros Hr.
      destruct (prop_readable args "title" Hr) as [title Ht].
      destruct (prop_readable args "labels" Hr) as [labels Hl].
      destruct (prop_readable args "data" Hr) as [data Hd].
      destruct (prop_readable args "colors" Hr) as [colors Hc].
      rewrite Ht, Hl, Hd, Hc. cbn [bind]. eauto.
Qed.

(** For arguments whose [datasets] is an array of series,
    [createScatterPlot] returns a configuration with as many series, in
    order, each with the [label] and the [data] (the points) of its input
    series unchanged and the supplied colour or the fixed default one; the
    configuration carries no [labels]. *)
Theorem createScatterPlot_preserves_series (args : value) (datasets : list value) :
  prop args "datasets" = Ok (VArr datasets) ->
  Forall readable datasets ->
  exists config data series,
    createScatterPlot args = Ok config /\
    prop config "data" = Ok data /\
    prop data "labels" = Ok VUndefined /\
    prop data "datasets" = Ok (VArr series) /\
    List.length series = List.length datasets /\
    Forall2 scatter_series_preserved datasets series.
Proof.
  intros Hds Hall.
  pose proof (prop_Ok_readable _ _ _ Hds) as Hr.
  destruct (prop_readable args "title" Hr) as [title Ht].
  destruct (mapM_Forall2 scatter_series _ datasets
              (Forall_impl _ scatter_series_kept Hall)) as [series [Hm HF]].
  unfold createScatterPlot. rewrite Ht, Hds. cbn [bind Array_map].
  rewrite Hm. cbn [bind]. do 3 eexists.
  split; [reflexivity|]. split; [reflexivity|]. split; [reflexivity|].
  split; [reflexivity|].
  split; [symmetry; eapply Forall2_length, HF|exact HF].
Qed.

(** [createScatterPlot_preserves_series] at two series of one point each,
    the second of which supplies a colour. *)
Lemma createScatterPlot_preserves_series_witness :
  (prop sample_scatter_args "datasets" = Ok (VArr sample_points) /\
   Forall readable sample_points) /\
  exists config data series,
    createScatterPlot sample_scatter_args = Ok config /\
    prop config "data" = Ok data /\
    prop data "labels" = Ok VUndefined /\
    prop data "datasets" = Ok (VArr series) /\
    List.length series = 2 /\
    Forall2 scatter_series_preserved sample_points series.
Proof.
  assert (H1 : prop sample_scatter_args "datasets" = Ok (VArr sample_points))
    by reflexivity.
  assert (H2 : Forall readable sample_points).
  { unfold sample_points. repeat constructor; discriminate. }
  split; [split; assumption|].
  exact (createScatterPlot_preserves_series sample_scatter_args sample_points H1 H2).
Defined.

(** When [colors] is truthy (any array, the empty one included),
    [createPieChart] uses it as it is for the single series, next to the
    unchanged [data]: the default palette plays no part, and nothing
    relates the number of colours to the number of slices. *)
Theorem createPieChart_supplied_colors (args colors : value) :
  prop args "colors" = Ok colors ->
  ToBoolean colors = true ->
  exists config series,
    createPieChart args = Ok config /\
    series_of config = Ok (VArr [series]) /\
    prop series "data" = prop args "data" /\
    prop series "backgroundColor" = Ok colors.
Proof.
  intros Hc Ht.
  pose proof (prop_Ok_readable _ _ _ Hc) as Hr.
  destruct (prop_readable args "title" Hr) as [title Htitle].
  destruct (prop_readable args "labels" Hr) as [labels Hl].
  destruct (prop_readable args "data" Hr) as [data Hd].
  unfold createPieChart. rewrite Htitle, Hl, Hd, Hc. cbn [bind].
  do 2 eexists. split; [reflexivity|]. split; [reflexivity|].
  split; [reflexivity|]. cbn. unfold js_or. now rewrite Ht.
Qed.

(** [createPieChart_supplied_colors] at two slices with two colours. *)
Lemma createPieChart_supplied_colors_witness :
  exists config series,
    createPieChart sample_colored_pie_args = Ok config /\
    series_of config = Ok (VArr [series]) /\
    prop series "data" = prop sample_colored_pie_args "data" /\
    prop series "backgroundColor" = Ok (VArr [VStr "red"; VStr "blue"]).
Proof.
  apply (createPieChart_supplied_colors sample_colored_pie_args
           (VArr [VStr "red"; VStr "blue"])); reflexivity.
Defined.

End ChartMore.

Module DispatchMore.
Import JS ChartGenerator Vocabulary Terms ChartSpec.







(** *** The dispatch *)

Lemma builder_of_None_iff name : builder_of name = None <-> ~ In name chartFunctionNames.
Proof.
  assert (Hin : forall n, In n chartFunctionNames ->
            name = n -> (builder_of name = None <-> ~ In name chartFunctionNames)).
  { intros n Hn ->. split.
    - simpl in Hn. destruct Hn as [<-|[<-|[<-|[<-|[]]]]]; discriminate.
    - intros H. contradiction. }
  destruct (in_dec string_dec name chartFunctionNames) as [Hi|Hn].
  - apply (Hin name Hi eq_refl).
  - split; [intros _; exact Hn|]. intros _. unfold builder_of.
    repeat match goal with
           | |- context [String.eqb name ?n] =>
               destruct (String.eqb_spec name n) as [->|_];
               [exfalso; apply Hn; simpl; tauto|]
           end.
    reflexivity.
Qed.

Lemma handleChartFunction_dispatch name args :
  handleChartFunction name args =
  match builder_of name with
  | Some builder =>
      bind (builder args) (fun config =>
      bind (prop args "title") (fun title =>
      Ok (chart_message (generateQuickChartUrl config) title)))
  | None => Ok (VStr ("Error: Unknown function " ++ name))
  end.
Proof.
  unfold handleChartFunction, builder_of.
  repeat match goal with
         | |- context [String.eqb name ?n] => destruct (String.eqb name n)
         end; reflexivity.
Qed.




(** [handleChartFunction] answers with the unknown-function string exactly
    for the names that are not registered: every registered name has its
    case in the switch, under which the call either throws or returns an
    object. *)
Theorem handleChartFunction_unknown_iff (name : string) (args : value) :
  handleChartFunction name args = Ok (VStr ("Error: Unknown function " ++ name)) <->
  ~ In name chartFunctionNames.
Proof.
  rewrite <- builder_of_None_iff, handleChartFunction_dispatch.
  destruct (builder_of name) as [builder|].
  - split; [|discriminate].
    destruct (builder args) as [config|e]; cbn [bind]; [|discriminate].
    destruct (prop args "title") as [title|e]; cbn [bind]; discriminate.
  - split; reflexivity.
Qed.

End DispatchMore.

(* ===================================================================== *)
(** * Properties of the example component *)
(* ===================================================================== *)

Module ExampleSpec.
Import JS DataLoader DataLoaderExample Vocabulary Terms FormatMore.

Lemma createDataContextPrompt_Ok_shape data basePrompt maxRows prompt :
  createDataContextPrompt data basePrompt maxRows = Ok prompt ->
  exists dataContext, prompt = prompt_around basePrompt dataContext.
Proof.
  unfold createDataContextPrompt.
  destruct (if Array_isArray data then _ else _) as [ctx|e]; cbn [bind]; [|discriminate].
  intros [= <-]. exists ctx. reflexivity.
Qed.

Section Platform.

Variable fetch : string -> result Response.
Variable JSON_parse : string -> result value.

Lemma loadData_try_Ok url key updates :
  loadData_try fetch JSON_parse url key = Ok updates ->
  exists dataContext,
    updates = [SetDirectConnection
                 (openAI_connection key (prompt_around assistant_prompt dataContext));
               SetShowKeyInput false].
Proof.
  unfold loadData_try.
  destruct (loadRemoteData fetch JSON_parse url _) as [data|e]; cbn [bind]; [|discriminate].
  destruct (negb (ToBoolean data) || _); [discriminate|].
  destruct (createDataContextPrompt data assistant_prompt 50) as [prompt|e] eqn:Hp;
    cbn [bind]; [|discriminate].
  intros [= <-].
  destruct (createDataContextPrompt_Ok_shape _ _ _ _ Hp) as [ctx ->]. eauto.
Qed.

(** Whatever happens, [loadData] leaves [loading] false and the two inputs
    as they were, and ends in one of two ways: either the error is
    cleared, the inputs are hidden and the connection carries the key and
    a system prompt built around the assistant prompt; or its [try] block
    threw, the error reads [Failed to load data: ] followed by the message
    of what was thrown, and the connection and the view are unchanged. *)
Theorem loadData_outcome (st : State) (url key : string) :
  let st' := apply_updates st (loadData fetch JSON_parse url key) in
  loading st' = false /\ dataUrl st' = dataUrl st /\ apiKey st' = apiKey st /\
  ((exists dataContext,
      error st' = None /\ showKeyInput st' = false /\
      directConnection st' =
        openAI_connection key (prompt_around assistant_prompt dataContext)) \/
   (exists err,
      loadData_try fetch JSON_parse url key = Throw err /\
      error st' = Some ("Failed to load data: " ++ message_of err) /\
      showKeyInput st' = showKeyInput st /\
      directConnection st' = directConnection st)).
Proof.
  unfold loadData.
  destruct (loadData_try fetch JSON_parse url key) as [updates|err] eqn:Htry.
  - destruct (loadData_try_Ok url key updates Htry) as [ctx ->].
    cbn. repeat split. left. exists ctx. repeat split.
  - cbn. repeat split. right. exists err. repeat split.
Qed.

(** For a URL that does not end in [.json] the file is read as CSV and
    the JSON decoder plays no part: with any two decoders [loadData] makes
    the same setter calls. *)
Theorem loadData_csv_ignores_JSON_parse (JSON_parse' : string -> result value)
    (url key : string) :
  endsWith url ".json" = false ->
  loadData fetch JSON_parse url key = loadData fetch JSON_parse' url key.
Proof.
  intros H. unfold loadData, loadData_try. rewrite H. reflexivity.
Qed.

(** When the text cannot be fetched, the error shown carries the message
    of the fetch error, and nothing else is set. *)
Theorem loadData_reports_fetch_failure (url key : string) (e : exn) :
  fetchRemoteData fetch url = Throw e ->
  loadData fetch JSON_parse url key =
    [SetLoading true; SetError None;
     SetError (Some ("Failed to load data: " ++ message_of e));
     SetLoading false].
Proof.
  intros H. unfold loadData, loadData_try, loadRemoteData. rewrite H. reflexivity.
Qed.

(** For a CSV text that was fetched: without any accepted data line the
    load ends with the error [No data loaded from file], so the prompt is
    never built from an empty data set; with at least one row the load
    succeeds, the prompt stage cannot fail. *)
Theorem loadData_csv_outcome (url key rawData : string) :
  endsWith url ".json" = false ->
  fetchRemoteData fetch url = Ok rawData ->
  (parseCSV rawData "," = [] ->
   loadData fetch JSON_parse url key =
     [SetLoading true; SetError None;
      SetError (Some "Failed to load data: No data loaded from file");
      SetLoading false]) /\
  (parseCSV rawData "," <> [] ->
   exists dataContext,
     loadData fetch JSON_parse url key =
       [SetLoading true; SetError None;
        SetDirectConnection
          (openAI_connection key (prompt_around assistant_prompt dataContext));
        SetShowKeyInput false;
        SetLoading false]).
Proof.
  intros Hurl Hfetch.
  unfold loadData, loadData_try, loadRemoteData. rewrite Hurl, Hfetch.
  cbn [bind String.eqb Ascii.eqb Bool.eqb]. unfold default_delimiter.
  split.
  - intros ->. reflexivity.
  - intros Hne.
    destruct (createDataContextPrompt_rows_ok (parseCSV rawData ",") assistant_prompt 50)
      as [ctx Hctx]; [apply parseCSV_Forall_is_row|lia|].
    exists ctx. rewrite Hctx.
    destruct (parseCSV rawData ",") as [|row rows]; [contradiction|]. reflexivity.
Qed.

(** For a URL ending in [.json]: a document that decodes to a falsy value
    ([null], [false], [0], the empty string) or to the empty array is
    refused with the error [No data loaded from file]. *)
Theorem loadData_rejects_empty_json (url key rawData : string) (data : value) :
  endsWith url ".json" = true ->
  fetchRemoteData fetch url = Ok rawData ->
  JSON_parse rawData = Ok data ->
  ToBoolean data = false \/ data = VArr [] ->
  loadData fetch JSON_parse url key =
    [SetLoading true; SetError None;
     SetError (Some "Failed to load data: No data loaded from file");
     SetLoading false].
Proof.
  intros Hurl Hfetch Hparse Hdata.
  unfold loadData, loadData_try, loadRemoteData, parseJSON. rewrite Hurl, Hfetch.
  cbn [bind String.eqb Ascii.eqb Bool.eqb try_catch]. rewrite Hparse. cbn [bind try_catch].
  destruct Hdata as [Hf| ->].
  - rewrite Hf. reflexivity.
  - reflexivity.
Qed.

(** From the initial state, whatever the user does, [loading] stays true:
    the load button is rendered disabled and nothing but [loadData] ever
    sets [loading] to false.  So in every reachable state only the two
    inputs can be edited; neither the load button nor the reset button
    can be pressed, no connection is set and no error is shown. *)
Theorem load_button_never_enabled (st : State) :
  reachable fetch JSON_parse st ->
  loading st = true /\ showKeyInput st = true /\
  directConnection st = VNull /\ error st = None /\
  enabled st ClickLoad = false /\ enabled st ClickReset = false.
Proof.
  induction 1 as [|st ev Hreach IH Hen].
  - repeat split.
  - destruct IH as (Hl & Hs & Hd & He & _ & _).
    destruct ev as [s|s| |]; cbn in Hen |- *.
    + rewrite Hl, Hs, Hd, He. repeat split.
    + rewrite Hl, Hs, Hd, He. repeat split.
    + rewrite Hl, Hs in Hen. discriminate.
    + rewrite Hs in Hen. discriminate.
Qed.

End Platform.

(** [loadData_csv_ignores_JSON_parse] at a URL ending in [.csv]. *)
Lemma loadData_csv_ignores_JSON_parse_witness :
  loadData sample_fetch sample_JSON_parse "https://example.org/data.csv" "sk-test" =
  loadData sample_fetch (fun _ => Ok VNull) "https://example.org/data.csv" "sk-test".
Proof.
  apply (loadData_csv_ignores_JSON_parse sample_fetch sample_JSON_parse (fun _ => Ok VNull)).
  reflexivity.
Defined.

(** [loadData_reports_fetch_failure] at a request that fails. *)
Lemma loadData_reports_fetch_failure_witness :
  loadData failing_fetch sample_JSON_parse "https://example.org/data.csv" "sk-test" =
    [SetLoading true; SetError None;
     SetError (Some "Failed to load data: Failed to fetch");
     SetLoading false].
Proof.
  exact (loadData_reports_fetch_failure failing_fetch sample_JSON_parse
           "https://example.org/data.csv" "sk-test" (TypeError "Failed to fetch") eq_refl).
Defined.

(** [loadData_csv_outcome] at a lone header line. *)
Lemma loadData_csv_outcome_witness :
  loadData header_only_fetch sample_JSON_parse "https://example.org/data.csv" "sk-test" =
    [SetLoading true; SetError None;
     SetError (Some "Failed to load data: No data loaded from file");
     SetLoading false].
Proof.
  apply (loadData_csv_outcome header_only_fetch sample_JSON_parse
           "https://example.org/data.csv" "sk-test" header_only_csv eq_refl eq_refl).
  reflexivity.
Defined.

(** [loadData_rejects_empty_json] at a document that decodes to [null]. *)
Lemma loadData_rejects_empty_json_witness :
  loadData sample_fetch (fun _ => Ok VNull) "https://example.org/data.json" "sk-test" =
    [SetLoading true; SetError None;
     SetError (Some "Failed to load data: No data loaded from file");
     SetLoading false].
Proof.
  apply (loadData_rejects_empty_json sample_fetch (fun _ => Ok VNull)
           "https://example.org/data.json" "sk-test" sample_csv VNull
           eq_refl eq_refl eq_refl).
  left. reflexivity.
Defined.

(** [load_button_never_enabled] after the user typed a key. *)
Lemma load_button_never_enabled_witness :
  reachable sample_fetch sample_JSON_parse
    (apply_updates initial_state [SetApiKey "sk-test"]) /\
  enabled (apply_updates initial_state [SetApiKey "sk-test"]) ClickLoad = false.
Proof.
  assert (H : reachable sample_fetch sample_JSON_parse
                (apply_updates initial_state [SetApiKey "sk-test"])).
  { apply (reachable_step sample_fetch sample_JSON_parse initial_state
             (ChangeApiKey "sk-test")); [constructor|reflexivity]. }
  split; [exact H|].
  exact (proj1 (proj2 (proj2 (proj2 (proj2
           (load_button_never_enabled sample_fetch sample_JSON_parse _ H)))))).
Defined.

End ExampleSpec.

(* ===================================================================== *)
(** * Fields of a line, and the failures of the formatter *)
(* ===================================================================== *)

Module FieldMore.
Import JS DataLoader Vocabulary Terms FormatFacts ParseCSVMore.

Lemma trimEnd_snoc_other c s :
  is_white_space c = false -> trimEnd (s ++ String c "") = s ++ String c "".
Proof.
  intros H. induction s as [|a s IH]; simpl.
  - now rewrite H.
  - rewrite IH. destruct s; reflexivity.
Qed.

Lemma drop_trailing_quote_snoc s : drop_trailing_quote (s ++ String DQUOTE "") = s.
Proof.
  induction s as [|a s IH]; [reflexivity|].
  cbn [append drop_trailing_quote].
  destruct (s ++ String DQUOTE "") eqn:E.
  - destruct s; discriminate.
  - now rewrite IH.
Qed.

(** A field enclosed in a pair of double quotes yields what stands between
    them, as it is: inner white space is kept, and quotes inside, doubled
    ones included, are not unescaped. *)
Theorem clean_field_quoted (content : string) :
  clean_field (String DQUOTE (content ++ String DQUOTE "")) = content.
Proof.
  unfold clean_field, trim. cbn [trimStart].
  replace (is_white_space DQUOTE) with false by reflexivity.
  change (String DQUOTE (content ++ String DQUOTE ""))
    with ((String DQUOTE content) ++ String DQUOTE "").
  rewrite trimEnd_snoc_other by reflexivity.
  unfold replace_edge_quotes. cbn [append drop_leading_quote].
  replace (Ascii.eqb DQUOTE DQUOTE) with true by reflexivity.
  apply drop_trailing_quote_snoc.
Qed.

(** Splitting on one character: a code unit added at the end, other than
    the separator, goes to the last piece. *)
Lemma split_char_snoc d c s :
  Ascii.eqb d c = false ->
  exists init piece,
    split (String d "") s = (init ++ [piece])%list /\
    split (String d "") (s ++ String c "") = (init ++ [(piece ++ String c "")%string])%list.
Proof.
  intros Hdc. unfold split. induction s as [|a s (init & piece & Hs & Hsc)].
  - exists [], "". split; [reflexivity|].
    cbn [append split_scan is_prefix]. rewrite Hdc. reflexivity.
  - cbn [append split_scan is_prefix String.length Nat.sub].
    destruct (Ascii.eqb d a); cbn [andb].
    + exists ("" :: init), piece. rewrite Hs, Hsc. split; reflexivity.
    + rewrite Hs, Hsc. destruct init as [|p init].
      * exists [], (String a piece). split; reflexivity.
      * exists (String a p :: init), piece. split; reflexivity.
Qed.

(** White space at the end of a line, such as the carriage return of a
    CRLF line ending, changes none of its fields, as long as it is not the
    delimiter itself. *)
Theorem fields_ignore_trailing_white_space (d c : ascii) (line : string) :
  is_white_space c = true ->
  Ascii.eqb d c = false ->
  fields (String d "") (line ++ String c "") = fields (String d "") line.
Proof.
  intros Hws Hdc. unfold fields.
  destruct (split_char_snoc d c line Hdc) as (init & piece & -> & ->).
  rewrite !map_app. f_equal. cbn [map]. f_equal.
  unfold clean_field. now rewrite trim_snoc_white_space.
Qed.

(** [fields_ignore_trailing_white_space] at a comma-separated line ending
    in a carriage return. *)
Lemma fields_ignore_trailing_white_space_witness :
  fields "," ("1,2" ++ String "013"%char "") = ["1"; "2"].
Proof.
  rewrite (fields_ignore_trailing_white_space ","%char "013"%char "1,2");
    reflexivity.
Defined.

(** [formatDataForAI] fails in one way only: on a non-empty array, when
    the slice it takes is empty or starts with [undefined] or [null], the
    reading of the column names throws a [TypeError].  Rows after the
    first shown one never make it fail. *)
Theorem formatDataForAI_failure (data : value) (maxRows : Z) (e : exn) :
  formatDataForAI data maxRows = Throw e <->
  exists rows,
    data = VArr rows /\ rows <> [] /\
    nullish (element (slice0 rows maxRows) 0) = true /\
    e = TypeError "Cannot convert undefined or null to object".
Proof.
  split.
  - destruct data; try discriminate.
    unfold formatDataForAI. destruct elements as [|r rows']; [discriminate|].
    replace (List.length (r :: rows') =? 0)%nat with false by reflexivity.
    intros H. exists (r :: rows'). split; [reflexivity|]. split; [discriminate|].
    destruct (element (slice0 (r :: rows') maxRows) 0); cbn in H |- *;
      try discriminate; injection H as <-; split; reflexivity.
  - intros (rows & -> & Hne & Hnull & ->).
    unfold formatDataForAI. destruct rows as [|r rows']; [contradiction|].
    replace (List.length (r :: rows') =? 0)%nat with false by reflexivity.
    destruct (element (slice0 (r :: rows') maxRows) 0); try discriminate; reflexivity.
Qed.

End FieldMore.
